(** * Content Idea Generator: the response parser, the idea generator,
      the page script and the CSV export of [main.py], embedded in Rocq.

    Python values are modelled as the interpreter has them: a [str] is a
    sequence of Unicode code points, an [int] is a [Z], a raised exception
    is a value of [outcome], and the module-level state ([openai.api_key],
    the remote service and the calls it has seen) is threaded explicitly. *)

From Stdlib Require Import String Ascii List ZArith NArith Lia Bool PrimFloat.
From Stdlib Require DecimalPos.
From Equations Require Import Equations.
Import ListNotations.
Local Open Scope N_scope.

(** ** Strings *)

(** A code point, and a Python [str]. *)
Definition char := N.
Definition str := list char.

(** An ASCII literal as a [str]. *)
Definition py (s : string) : str :=
  map N_of_ascii (list_ascii_of_string s).

Definition char_eqb (a b : char) : bool := N.eqb a b.

Fixpoint str_eqb (a b : str) : bool :=
  match a, b with
  | [], [] => true
  | x :: a', y :: b' => char_eqb x y && str_eqb a' b'
  | _, _ => false
  end.

(** Named code points used by the module. *)
Definition TAB : char := 9.
Definition LF : char := 10.
Definition CR : char := 13.
Definition SPACE : char := 32.
Definition DQUOTE : char := 34.
Definition COMMA : char := 44.
Definition HYPHEN : char := 45.
Definition LBRACKET : char := 91.
Definition RBRACKET : char := 93.
Definition BULLET : char := 8226.

(** Truthiness of a sequence: [if s], [if not s]. *)
Definition truthy {A} (s : list A) : bool :=
  match s with [] => false | _ :: _ => true end.

(** [c in s] for a one-character [c]. *)
Definition contains (s : str) (c : char) : bool := existsb (char_eqb c) s.

(** ** Exceptions *)

(** The exceptions the module can meet; all of them derive from
    [Exception], so [except Exception] catches each one. *)
Inductive exn :=
| ValueError
| IndexError
| AttributeError
| RecursionError
| JSONDecodeError
| UnicodeEncodeError
| RuntimeError (msg : str)
| APIError (code : N).

Inductive outcome (A : Type) :=
| Ok (a : A)
| Raise (e : exn).
Arguments Ok {A} a.
Arguments Raise {A} e.

Definition bind {A B} (m : outcome A) (k : A -> outcome B) : outcome B :=
  match m with Ok a => k a | Raise e => Raise e end.

Declare Scope py_scope.
Delimit Scope py_scope with py.
Notation "x <- m ;; k" := (bind m (fun x => k))
  (at level 61, m at next level, right associativity) : py_scope.
Local Open Scope py_scope.

(** [try: body  except Exception: handler]. *)
Definition try_except {A} (body : outcome A) (handler : exn -> outcome A)
  : outcome A :=
  match body with Ok a => Ok a | Raise e => handler e end.

(** ** [str] methods *)

(** [str.isspace] for one code point: the code points of bidirectional
    type WS, B or S, or of category Zs. *)
Definition isspace (c : char) : bool :=
  ((9 <=? c) && (c <=? 13)) || ((28 <=? c) && (c <=? 32))
  || (c =? 133) || (c =? 160) || (c =? 5760)
  || ((8192 <=? c) && (c <=? 8202)) || (c =? 8232) || (c =? 8233)
  || (c =? 8239) || (c =? 8287) || (c =? 12288).

(** Line boundaries of [str.splitlines]. *)
Definition islinebreak (c : char) : bool :=
  ((10 <=? c) && (c <=? 13)) || ((28 <=? c) && (c <=? 30))
  || (c =? 133) || (c =? 8232) || (c =? 8233).

(** [s.lstrip(chars)] with the set given as a predicate. *)
Fixpoint lstrip_by (p : char -> bool) (s : str) : str :=
  match s with
  | [] => []
  | c :: r => if p c then lstrip_by p r else s
  end.

Definition rstrip_by (p : char -> bool) (s : str) : str :=
  rev (lstrip_by p (rev s)).

(** [s.lstrip(chars)]. *)
Definition lstrip (chars : str) (s : str) : str := lstrip_by (contains chars) s.

(** [s.strip()]. *)
Definition strip (s : str) : str := rstrip_by isspace (lstrip_by isspace s).

(** [s.index(c)] for a one-character [c]: the first position, or
    [ValueError]. *)
Fixpoint index (c : char) (s : str) : outcome nat :=
  match s with
  | [] => Raise ValueError
  | x :: r => if char_eqb x c then Ok O else (i <- index c r ;; Ok (S i))
  end.

(** [s.rindex(c)]: the last position, or [ValueError]. *)
Fixpoint rindex (c : char) (s : str) : outcome nat :=
  match s with
  | [] => Raise ValueError
  | x :: r =>
      match rindex c r with
      | Ok i => Ok (S i)
      | Raise e => if char_eqb x c then Ok O else Raise e
      end
  end.

(** [s[a:b]] for non-negative [a] and [b]. *)
Definition slice {A} (s : list A) (a b : nat) : list A :=
  firstn (b - a) (skipn a s).

(** [s[:n]] for any integer [n]: a negative [n] counts from the end. *)
Definition slice_to {A} (s : list A) (n : Z) : list A :=
  if (0 <=? n)%Z then firstn (Z.to_nat n) s
  else firstn (length s - Z.to_nat (- n)) s.

(** [s[i]] for a non-negative [i], or [IndexError]. *)
Definition getitem {A} (s : list A) (i : nat) : outcome A :=
  match nth_error s i with Some x => Ok x | None => Raise IndexError end.

(** [s[-1]], or [IndexError]. *)
Definition getitem_last {A} (s : list A) : outcome A :=
  getitem s (length s - 1).

(** [s.splitlines()]: [cur] holds the current line in reverse. A line
    ends at a line boundary ([\r\n] counts as one); no empty line follows
    the last boundary. *)
Fixpoint splitlines_aux (s : str) (cur : str) : list str :=
  match s with
  | [] => match cur with [] => [] | _ => [rev cur] end
  | c :: r =>
      if islinebreak c then
        rev cur ::
          match r with
          | d :: r' =>
              if char_eqb c CR && char_eqb d LF then splitlines_aux r' []
              else splitlines_aux r []
          | [] => []
          end
      else splitlines_aux r (c :: cur)
  end.

Definition splitlines (s : str) : list str := splitlines_aux s [].

(** [str(n)] for an [int]. *)
Fixpoint digits_of_uint (d : Decimal.uint) : str :=
  match d with
  | Decimal.Nil => []
  | Decimal.D0 r => 48 :: digits_of_uint r
  | Decimal.D1 r => 49 :: digits_of_uint r
  | Decimal.D2 r => 50 :: digits_of_uint r
  | Decimal.D3 r => 51 :: digits_of_uint r
  | Decimal.D4 r => 52 :: digits_of_uint r
  | Decimal.D5 r => 53 :: digits_of_uint r
  | Decimal.D6 r => 54 :: digits_of_uint r
  | Decimal.D7 r => 55 :: digits_of_uint r
  | Decimal.D8 r => 56 :: digits_of_uint r
  | Decimal.D9 r => 57 :: digits_of_uint r
  end.

Definition str_of_int (n : Z) : str :=
  match Z.to_int n with
  | Decimal.Pos d => digits_of_uint d
  | Decimal.Neg d => HYPHEN :: digits_of_uint d
  end.

(** [s.replace(old, new)]; [skip] counts the characters of a match of
    [old] still to be passed over. *)
Fixpoint startswith (s p : str) : bool :=
  match p, s with
  | [], _ => true
  | x :: p', y :: s' => char_eqb x y && startswith s' p'
  | _ :: _, [] => false
  end.

Fixpoint replace_aux (old new s : str) (skip : nat) : str :=
  match s with
  | [] => []
  | c :: r =>
      match skip with
      | S k => replace_aux old new r k
      | O =>
          if startswith s old then new ++ replace_aux old new r (length old - 1)
          else c :: replace_aux old new r O
      end
  end.

Definition replace (old new s : str) : str :=
  match old with
  | [] => new ++ flat_map (fun c => c :: new) s
  | _ :: _ => replace_aux old new s O
  end.

(** [s.encode("utf-8")]: the bytes of each code point; a surrogate
    (U+D800 to U+DFFF) cannot be encoded. A [str] holds no code point
    above U+10FFFF. *)
Definition bytes := list N.

Definition encode_char (c : char) : outcome bytes :=
  if c <? 128 then Ok [c]
  else if c <? 2048 then Ok [192 + c / 64; 128 + c mod 64]
  else if (55296 <=? c) && (c <=? 57343) then Raise UnicodeEncodeError
  else if c <? 65536 then
    Ok [224 + c / 4096; 128 + (c / 64) mod 64; 128 + c mod 64]
  else
    Ok [240 + c / 262144; 128 + (c / 4096) mod 64;
        128 + (c / 64) mod 64; 128 + c mod 64].

Fixpoint encode_utf8 (s : str) : outcome bytes :=
  match s with
  | [] => Ok []
  | c :: r =>
      b <- encode_char c ;;
      bs <- encode_utf8 r ;;
      Ok (b ++ bs)
  end.

(** ** JSON values and the interpreter's library *)

#[local] Set Warnings "-register-all".

(** What [json.loads] returns: [None], [bool], a number (kept as its
    lexeme), [str], [list] or [dict] (members in source order). *)
Inductive json :=
| JNull
| JBool (b : bool)
| JNum (lexeme : str)
| JStr (s : str)
| JList (items : list json)
| JDict (members : list (str * json)).

(** [isinstance(v, str)]. *)
Definition is_str (v : json) : bool :=
  match v with JStr _ => true | _ => false end.

(** The elements of [items] as strings when
    [all(isinstance(i, str) for i in items)] holds, nothing otherwise. *)
Fixpoint strings_of (items : list json) : option (list str) :=
  match items with
  | [] => Some []
  | JStr s :: r =>
      match strings_of r with Some l => Some (s :: l) | None => None end
  | _ :: _ => None
  end.

(** The two library functions whose result depends on the interpreter
    and its Unicode database rather than on this module: [str.isdigit]
    on one code point, and [json.loads] on a [str]. *)
Class Runtime := {
  isdigit : char -> bool;
  json_loads : str -> outcome json
}.

(** ** The response parser *)

Section Parser.
Context {rt : Runtime}.

(** The [while] loop of the fallback path: advance [i] over digits and
    the characters of [".) "]. *)
Equations? skip_numbering (ln : str) (i : nat) : outcome nat
  by wf (length ln - i)%nat lt :=
  skip_numbering ln i with lt_dec i (length ln) => {
    | right _ => Ok i
    | left _ with getitem ln i => {
        | Raise e => Raise e
        | Ok c =>
            if isdigit c || contains (py ".) ") c
            then skip_numbering ln (i + 1)
            else Ok i } }.
Proof. lia. Qed.

(** The body of [for ln in lines]: strip bullets, then numbering. *)
Definition clean_line (ln : str) : outcome str :=
  let ln := lstrip (HYPHEN :: BULLET :: SPACE :: nil) ln in
  if truthy ln then
    c <- getitem ln 0 ;;
    if isdigit c then
      i <- skip_numbering ln 0 ;;
      Ok (strip (skipn i ln))
    else Ok ln
  else Ok ln.

Fixpoint clean_lines (lines : list str) (cleaned : list str)
  : outcome (list str) :=
  match lines with
  | [] => Ok cleaned
  | ln :: rest =>
      ln <- clean_line ln ;;
      clean_lines rest (if truthy ln then cleaned ++ [ln] else cleaned)
  end.

(** The fallback: split on line breaks, drop numbering and dashes. *)
Definition fallback_lines (text : str) : outcome (list str) :=
  let lines :=
    map strip (filter (fun ln => truthy (strip ln)) (splitlines text)) in
  clean_lines lines [].

(** [json.loads] on the text from the first "[" to the last "]". *)
Definition json_candidate (text : str) : outcome json :=
  start <- index LBRACKET text ;;
  e <- rindex RBRACKET text ;;
  let end_ := (e + 1)%nat in
  let candidate := slice text start end_ in
  json_loads candidate.

(** The comprehension [[i.strip() for i in arr if i and i.strip()]]. *)
Definition stripped_nonempty (arr : list str) : list str :=
  map strip (filter (fun i => truthy i && truthy (strip i)) arr).

(** The [try] block: [Some ideas] when it returns, [None] when control
    falls out of it. *)
Definition try_json_array (text : str) : outcome (option (list str)) :=
  arr <- json_candidate text ;;
  match arr with
  | JList items =>
      match strings_of items with
      | Some strs => Ok (Some (stripped_nonempty strs))
      | None => Ok None
      end
  | _ => Ok None
  end.

Definition extract_json_array (text : str) : outcome (list str) :=
  let text := strip text in
  r <- try_except (try_json_array text) (fun _ => Ok None) ;;
  match r with
  | Some ideas => Ok ideas
  | None => fallback_lines text
  end.

End Parser.

(** ** A reference interpreter

    An instance of [Runtime] to run the module on concrete text: the
    digit table of Unicode 14 (CPython 3.11) and a decoder for the JSON
    grammar as the [json] module reads it. *)

Module Reference.

(** Code points with Numeric_Type Digit or Decimal, as inclusive ranges. *)
Definition digit_ranges : list (N * N) :=
  [(48, 57); (178, 179); (185, 185); (1632, 1641); (1776, 1785);
   (1984, 1993); (2406, 2415); (2534, 2543); (2662, 2671); (2790, 2799);
   (2918, 2927); (3046, 3055); (3174, 3183); (3302, 3311); (3430, 3439);
   (3558, 3567); (3664, 3673); (3792, 3801); (3872, 3881); (4160, 4169);
   (4240, 4249); (4969, 4977); (6112, 6121); (6160, 6169); (6470, 6479);
   (6608, 6618); (6784, 6793); (6800, 6809); (6992, 7001); (7088, 7097);
   (7232, 7241); (7248, 7257); (8304, 8304); (8308, 8313); (8320, 8329);
   (9312, 9320); (9332, 9340); (9352, 9360); (9450, 9450); (9461, 9469);
   (9471, 9471); (10102, 10110); (10112, 10120); (10122, 10130);
   (42528, 42537); (43216, 43225); (43264, 43273); (43472, 43481);
   (43504, 43513); (43600, 43609); (44016, 44025); (65296, 65305);
   (66720, 66729); (68160, 68163); (68912, 68921); (69216, 69224);
   (69714, 69722); (69734, 69743); (69872, 69881); (69942, 69951);
   (70096, 70105); (70384, 70393); (70736, 70745); (70864, 70873);
   (71248, 71257); (71360, 71369); (71472, 71481); (71904, 71913);
   (72016, 72025); (72784, 72793); (73040, 73049); (73120, 73129);
   (92768, 92777); (92864, 92873); (93008, 93017); (120782, 120831);
   (123200, 123209); (123632, 123641); (125264, 125273); (127232, 127242);
   (130032, 130041)].

Definition unicode_isdigit (c : char) : bool :=
  existsb (fun r => (fst r <=? c) && (c <=? snd r)) digit_ranges.

(** JSON whitespace. *)
Definition is_ws (c : char) : bool :=
  (c =? 32) || (c =? 9) || (c =? 10) || (c =? 13).

Definition skip_ws (s : str) : str := lstrip_by is_ws s.

Definition is_dec (c : char) : bool := (48 <=? c) && (c <=? 57).

Definition hexval (c : char) : option N :=
  if is_dec c then Some (c - 48)
  else if (97 <=? c) && (c <=? 102) then Some (c - 87)
  else if (65 <=? c) && (c <=? 70) then Some (c - 55)
  else None.

Definition hex4 (a b c d : char) : option N :=
  match hexval a, hexval b, hexval c, hexval d with
  | Some x, Some y, Some z, Some w => Some (((x * 16 + y) * 16 + z) * 16 + w)
  | _, _, _, _ => None
  end.

Definition is_high (u : N) : bool := (55296 <=? u) && (u <=? 56319).
Definition is_low (u : N) : bool := (56320 <=? u) && (u <=? 57343).
Definition join_surrogates (hi lo : N) : N :=
  65536 + (hi - 55296) * 1024 + (lo - 56320).

(** One-letter escapes. *)
Definition escape (e : char) : option char :=
  if e =? 34 then Some 34 else if e =? 92 then Some 92
  else if e =? 47 then Some 47 else if e =? 98 then Some 8
  else if e =? 102 then Some 12 else if e =? 110 then Some 10
  else if e =? 114 then Some 13 else if e =? 116 then Some 9
  else None.

(** The text after an opening quote: the decoded string (built in
    reverse in [acc]) and what follows the closing quote. Control
    characters are refused; a high surrogate escape followed by a low
    one is joined. *)
Fixpoint scanstring (s : str) (acc : str) : option (str * str) :=
  match s with
  | [] => None
  | c :: r =>
      if c =? 34 then Some (rev acc, r)
      else if c <? 32 then None
      else if c =? 92 then
        match r with
        | [] => None
        | e :: r1 =>
            if e =? 117 then
              match r1 with
              | a :: b :: c1 :: d :: r5 =>
                  match hex4 a b c1 d with
                  | None => None
                  | Some u =>
                      match r5 with
                      | 92 :: 117 :: a2 :: b2 :: c2 :: d2 :: r11 =>
                          if is_high u then
                            match hex4 a2 b2 c2 d2 with
                            | None => None
                            | Some u2 =>
                                if is_low u2
                                then scanstring r11 (join_surrogates u u2 :: acc)
                                else scanstring r5 (u :: acc)
                            end
                          else scanstring r5 (u :: acc)
                      | _ => scanstring r5 (u :: acc)
                      end
                  end
              | _ => None
              end
            else
              match escape e with
              | Some x => scanstring r1 (x :: acc)
              | None => None
              end
        end
      else scanstring r (c :: acc)
  end.

(** The longest prefix whose characters satisfy [p], and the rest. *)
Fixpoint span (p : char -> bool) (s : str) : str * str :=
  match s with
  | c :: r => if p c then let (a, b) := span p r in (c :: a, b) else ([], s)
  | [] => ([], [])
  end.

(** A number: its lexeme and the rest. A fraction needs a digit after
    the point and an exponent a digit after its sign, else each is left
    unread. *)
Definition match_number (s : str) : option (str * str) :=
  let (sign, s0) :=
    match s with 45 :: r => ([45], r) | _ => ([], s) end in
  let int_part :=
    match s0 with
    | c :: r =>
        if c =? 48 then Some ([c], r)
        else if is_dec c then let (ds, r') := span is_dec r in Some (c :: ds, r')
        else None
    | [] => None
    end in
  match int_part with
  | None => None
  | Some (ip, s1) =>
      let (frac, s2) :=
        match s1 with
        | 46 :: d :: r =>
            if is_dec d then let (ds, r') := span is_dec (d :: r) in (46 :: ds, r')
            else ([], s1)
        | _ => ([], s1)
        end in
      let (ex, s3) :=
        match s2 with
        | e :: r =>
            if (e =? 101) || (e =? 69) then
              let (sg, r0) :=
                match r with
                | g :: r' => if (g =? 43) || (g =? 45) then ([g], r') else ([], r)
                | [] => ([], r)
                end in
              match span is_dec r0 with
              | ([], _) => ([], s2)
              | (ds, r') => (e :: sg ++ ds, r')
              end
            else ([], s2)
        | [] => ([], s2)
        end in
      Some (sign ++ ip ++ frac ++ ex, s3)
  end.

(** [s] without the literal [lit] at its start. *)
Definition after (lit : str) (s : str) : option str :=
  if startswith s lit then Some (skipn (length lit) s) else None.

(** One value and the rest of the text, the elements of an array after
    its "[" and the members of an object after its "{". [fuel] bounds
    the chain of calls, each of which reads at least one character
    before the next but one. *)
Fixpoint scan_once (fuel : nat) (s : str) : option (json * str) :=
  match fuel with
  | O => None
  | S fuel' =>
      match s with
      | [] => None
      | c :: r =>
          if c =? 34 then
            match scanstring r [] with
            | Some (v, r') => Some (JStr v, r')
            | None => None
            end
          else if c =? 91 then
            match skip_ws r with
            | 93 :: r' => Some (JList [], r')
            | r' =>
                match parse_items fuel' r' [] with
                | Some (l, r'') => Some (JList l, r'')
                | None => None
                end
            end
          else if c =? 123 then
            match skip_ws r with
            | 125 :: r' => Some (JDict [], r')
            | r' =>
                match parse_members fuel' r' [] with
                | Some (l, r'') => Some (JDict l, r'')
                | None => None
                end
            end
          else
            match after (py "null") s, after (py "true") s,
                  after (py "false") s with
            | Some r', _, _ => Some (JNull, r')
            | _, Some r', _ => Some (JBool true, r')
            | _, _, Some r' => Some (JBool false, r')
            | None, None, None =>
                match after (py "NaN") s, after (py "Infinity") s,
                      after (py "-Infinity") s with
                | Some r', _, _ => Some (JNum (py "NaN"), r')
                | _, Some r', _ => Some (JNum (py "Infinity"), r')
                | _, _, Some r' => Some (JNum (py "-Infinity"), r')
                | None, None, None =>
                    match match_number s with
                    | Some (l, r') => Some (JNum l, r')
                    | None => None
                    end
                end
            end
      end
  end
with parse_items (fuel : nat) (s : str) (acc : list json)
  : option (list json * str) :=
  match fuel with
  | O => None
  | S fuel' =>
      match scan_once fuel' s with
      | None => None
      | Some (v, r) =>
          match skip_ws r with
          | 93 :: r' => Some (rev (v :: acc), r')
          | 44 :: r' => parse_items fuel' (skip_ws r') (v :: acc)
          | _ => None
          end
      end
  end
with parse_members (fuel : nat) (s : str) (acc : list (str * json))
  : option (list (str * json) * str) :=
  match fuel with
  | O => None
  | S fuel' =>
      match s with
      | 34 :: r =>
          match scanstring r [] with
          | None => None
          | Some (k, r1) =>
              match skip_ws r1 with
              | 58 :: r2 =>
                  match scan_once fuel' (skip_ws r2) with
                  | None => None
                  | Some (v, r3) =>
                      match skip_ws r3 with
                      | 125 :: r' => Some (rev ((k, v) :: acc), r')
                      | 44 :: r' =>
                          parse_members fuel' (skip_ws r') ((k, v) :: acc)
                      | _ => None
                      end
                  end
              | _ => None
              end
          end
      | _ => None
      end
  end.

(** [json.loads(s)]: one value between optional whitespace, and nothing
    after it. The fuel is twice the length of the text and two more. *)
Definition loads (s : str) : outcome json :=
  match scan_once (2 * length s + 2) (skip_ws s) with
  | Some (v, r) =>
      match skip_ws r with
      | [] => Ok v
      | _ :: _ => Raise JSONDecodeError
      end
  | None => Raise JSONDecodeError
  end.

#[export] Instance cpython : Runtime :=
  {| isdigit := unicode_isdigit; json_loads := loads |}.

End Reference.

(** ** The remote service and the module state *)

Definition DEFAULT_MODEL : str := py "gpt-3.5-turbo".
Definition MAX_TOKENS : Z := 600.
Definition DEFAULT_NUM_IDEAS : Z := 5.

(** The arguments of one [openai.chat.completions.create] call;
    a message is its role and its content. *)
Record Request := {
  req_model : str;
  req_messages : list (str * str);
  req_max_tokens : Z;
  req_temperature : float
}.

(** [st.session_state]: the keys "ideas" and "topic", each absent until
    it is first assigned. *)
Record Session := {
  ideas : option (list str);
  topic : option str
}.

(** What lives outside the function calls: [openai.api_key] (absent or
    [None] is [None] here), the remote service, which answers a request
    with a text or fails, possibly depending on the requests it has
    already seen, the requests sent so far, oldest first, and the state
    of the browser session. *)
Record World := {
  api_key : option str;
  service : list Request -> Request -> outcome str;
  calls : list Request;
  session_state : Session
}.

Definition set_api_key (k : str) (w : World) : World :=
  {| api_key := Some k; service := service w; calls := calls w;
     session_state := session_state w |}.

Definition log_call (r : Request) (w : World) : World :=
  {| api_key := api_key w; service := service w; calls := calls w ++ [r];
     session_state := session_state w |}.

Definition set_session (s : Session) (w : World) : World :=
  {| api_key := api_key w; service := service w; calls := calls w;
     session_state := s |}.

(** Truthiness of [getattr(openai, "api_key", None)]. *)
Definition key_set (k : option str) : bool :=
  match k with Some s => truthy s | None => false end.

(** Computations that read and change the world and may raise; what was
    done before an exception stays done. *)
Definition M (A : Type) : Type := World -> outcome A * World.

Definition ret {A} (a : A) : M A := fun w => (Ok a, w).

Definition lift {A} (o : outcome A) : M A := fun w => (o, w).

Definition bindM {A B} (m : M A) (k : A -> M B) : M B :=
  fun w =>
    match m w with
    | (Ok a, w') => k a w'
    | (Raise e, w') => (Raise e, w')
    end.

Declare Scope world_scope.
Delimit Scope world_scope with world.
Notation "x <- m ;; k" := (bindM m (fun x => k))
  (at level 61, m at next level, right associativity) : world_scope.

Definition SYSTEM_PROMPT : str :=
  py "You are a helpful assistant that returns a strictly parseable JSON array "
  ++ py "of short, actionable content-creation ideas (strings).".

(** The request [call_openai_chat] sends, with the default model and
    token limit. *)
Definition chat_request (prompt : str) (temperature : float) : Request :=
  let messages := [(py "system", SYSTEM_PROMPT); (py "user", prompt)] in
  {| req_model := DEFAULT_MODEL;
     req_messages := messages;
     req_max_tokens := MAX_TOKENS;
     req_temperature := temperature |}.

Definition call_openai_chat (prompt : str) (temperature : float) : M str :=
  fun w =>
    if negb (key_set (api_key w)) then
      (Raise (RuntimeError (py "OpenAI API key is not set.")), w)
    else
      let req := chat_request prompt temperature in
      (service w (calls w) req, log_call req w).

(** ** The idea generator *)

Section Generator.
Context {rt : Runtime}.

Definition primary_prompt (topic : str) (n : Z) (style tone : str) : str :=
  py "Topic: " ++ topic ++ [LF]
  ++ py "Number of ideas: " ++ str_of_int n ++ [LF]
  ++ py "Style: " ++ style ++ [LF]
  ++ py "Tone: " ++ tone ++ [LF]
  ++ py "Instructions: Return ONLY a JSON array of strings. Example: ["
  ++ [DQUOTE] ++ py "Idea 1" ++ [DQUOTE] ++ py ", "
  ++ [DQUOTE] ++ py "Idea 2" ++ [DQUOTE] ++ py "]" ++ [LF]
  ++ py "Each idea should be concise (preferably < 140 characters), actionable, and unique.".

Definition fallback_prompt (topic : str) (n : Z) (style tone : str) : str :=
  py "Topic: " ++ topic ++ [LF]
  ++ py "Number of ideas: " ++ str_of_int n ++ [LF]
  ++ py "Style: " ++ style ++ [LF]
  ++ py "Tone: " ++ tone ++ [LF]
  ++ py "Return ONLY a JSON array of exactly the requested number of ideas (strings).".

(** [len(s)] as an [int]. *)
Definition len {A} (s : list A) : Z := Z.of_nat (length s).

(** The synthesized idea [f"{topic} - idea {len(result)+1}"]. *)
Definition placeholder (topic : str) (result : list str) : str :=
  topic ++ py " - idea " ++ str_of_int (len result + 1).

(** The final [while len(result) < n] loop. *)
Equations? pad_loop (topic : str) (n : Z) (result : list str)
  : outcome (list str) by wf (Z.to_nat (n - len result)) lt :=
  pad_loop topic n result with Z_lt_dec (len result) n => {
    | right _ => Ok result
    | left _ with truthy result => {
        | false => pad_loop topic n (result ++ [placeholder topic result])
        | true with getitem_last result => {
            | Raise e => Raise e
            | Ok last => pad_loop topic n (result ++ [last ++ []]) } } }.
Proof. all: unfold len in *; rewrite length_app; simpl; lia. Qed.

Local Open Scope world_scope.

Definition generate_ideas (topic : str) (n : Z) (style tone : str)
  (temperature : float) : M (list str) :=
  let prompt := primary_prompt topic n style tone in
  raw <- call_openai_chat prompt temperature ;;
  ideas <- lift (extract_json_array raw) ;;
  if (n <=? len ideas)%Z then ret (slice_to ideas n)
  else
    returned <-
      (if (len ideas <? n)%Z then
         let fallback_prompt := fallback_prompt topic n style tone in
         raw2 <- call_openai_chat fallback_prompt temperature ;;
         ideas2 <- lift (extract_json_array raw2) ;;
         if (n <=? len ideas2)%Z then ret (Some (slice_to ideas2 n))
         else ret None
       else ret None) ;;
    match returned with
    | Some out => ret out
    | None => lift (pad_loop topic n ideas)
    end.

End Generator.

(** ** The page script *)

(** The widget values of one run of the script: the sidebar key field,
    the sliders and select boxes, the topic field and the buttons. *)
Record Widgets := {
  key_input : str;
  num_ideas : Z;
  temp : float;
  style : str;
  tone : str;
  topic_input : str;
  gen_btn : bool;
  gen_more_btn : bool;
  clear_btn : bool
}.

(** What a run shows. *)
Inductive Notice :=
| SidebarKeyFromInput
| SidebarKeyFromEnv
| SidebarNoKey
| ErrorMessage (msg : str)
| ShownException (e : exn)
| Generated (count : nat)
| Appended (count total : nat).

Record Display := {
  numbered : list str;
  joined : str;
  csv_bytes : bytes
}.

Record Page := {
  notices : list Notice;
  display : option Display;
  rerun : bool
}.

(** [enumerate(l, start)]. *)
Fixpoint enumerate {A} (l : list A) (start : Z) : list (Z * A) :=
  match l with
  | [] => []
  | x :: r => (start, x) :: enumerate r (start + 1)
  end.

(** [sep.join(parts)]. *)
Fixpoint join (sep : str) (parts : list str) : str :=
  match parts with
  | [] => []
  | [p] => p
  | p :: r => p ++ sep ++ join sep r
  end.

(** One data row of the CSV download. *)
Definition csv_row (idx : Z) (it : str) : str :=
  let safe := replace [DQUOTE] [DQUOTE; DQUOTE] it in
  str_of_int idx ++ [COMMA] ++ [DQUOTE] ++ safe ++ [DQUOTE] ++ [LF].

(** The text written to [csv_io]. *)
Definition csv_export (ideas : list str) : str :=
  py "index,idea" ++ [LF]
  ++ concat (map (fun p => csv_row (fst p) (snd p)) (enumerate ideas 1)).

Definition joined_text (ideas : list str) : str :=
  join [LF]
    (map (fun p => str_of_int (fst p + 1) ++ py ". " ++ snd p)
       (enumerate ideas 0)).

Definition numbered_lines (ideas : list str) : list str :=
  map (fun p => py "**" ++ str_of_int (fst p) ++ py ".** " ++ snd p)
    (enumerate ideas 1).

(** Prefer the sidebar key, then the environment variable. *)
Definition set_api_key_from_env_or_input (env_key : option str)
  (input_key : str) : M Notice :=
  fun w =>
    if truthy input_key then (Ok SidebarKeyFromInput, set_api_key input_key w)
    else if key_set env_key then
      match env_key with
      | Some k => (Ok SidebarKeyFromEnv, set_api_key k w)
      | None => (Ok SidebarNoKey, w)
      end
    else (Ok SidebarNoKey, w).

(** Reading and assigning [st.session_state.ideas] and
    [st.session_state.topic]; reading an absent key raises. *)
Definition read_ideas : M (list str) :=
  fun w =>
    match ideas (session_state w) with
    | Some l => (Ok l, w)
    | None => (Raise AttributeError, w)
    end.

Definition read_topic : M str :=
  fun w =>
    match topic (session_state w) with
    | Some t => (Ok t, w)
    | None => (Raise AttributeError, w)
    end.

Definition write_ideas (l : list str) : M unit :=
  fun w =>
    (Ok tt, set_session {| ideas := Some l; topic := topic (session_state w) |} w).

Definition write_topic (t : str) : M unit :=
  fun w =>
    (Ok tt, set_session {| ideas := ideas (session_state w); topic := Some t |} w).

(** [try: body  except Exception as e: handler]. *)
Definition try_exceptM {A} (body : M A) (handler : exn -> M A) : M A :=
  fun w =>
    match body w with
    | (Ok a, w') => (Ok a, w')
    | (Raise e, w') => handler e w'
    end.

Section Script.
Context {rt : Runtime}.
Local Open Scope world_scope.

(** [if "ideas" not in st.session_state: ...]. *)
Definition init_session : M unit :=
  fun w =>
    match ideas (session_state w) with
    | None => (_ <- write_ideas [] ;; write_topic []) w
    | Some _ => (Ok tt, w)
    end.

(** The [if gen_btn:] block. *)
Definition on_generate (ui : Widgets) : M (list Notice) :=
  if negb (truthy (topic_input ui)) then
    ret [ErrorMessage (py "Please enter a topic before generating ideas.")]
  else
    try_exceptM
      (new <- generate_ideas (topic_input ui) (num_ideas ui) (style ui)
                (tone ui) (temp ui) ;;
       _ <- write_ideas new ;;
       _ <- write_topic (topic_input ui) ;;
       ret [Generated (length new)])
      (fun e => ret [ShownException e]).

(** The [if gen_more_btn:] block. *)
Definition on_generate_more (ui : Widgets) : M (list Notice) :=
  stored <- read_topic ;;
  if negb (truthy stored) then
    ret [ErrorMessage
           (py "No previous topic " ++ [8212]
            ++ py " press 'Generate Ideas' first or enter a topic.")]
  else
    try_exceptM
      (stored <- read_topic ;;
       more <- generate_ideas stored (num_ideas ui) (style ui)
                 (tone ui) (temp ui) ;;
       old <- read_ideas ;;
       _ <- write_ideas (old ++ more) ;;
       total <- read_ideas ;;
       ret [Appended (length more) (length total)])
      (fun e => ret [ShownException e]).

(** The [if st.session_state.ideas:] block: the list, the bulk tools and
    the clear button. The second component tells whether a rerun was
    asked for. *)
Definition render (ui : Widgets) : M (option Display * bool) :=
  shown <- read_ideas ;;
  if truthy shown then
    encoded <- lift (encode_utf8 (csv_export shown)) ;;
    let d := {| numbered := numbered_lines shown;
                joined := joined_text shown;
                csv_bytes := encoded |} in
    if clear_btn ui then
      _ <- write_ideas [] ;;
      _ <- write_topic [] ;;
      ret (Some d, true)
    else ret (Some d, false)
  else ret (None, false).

(** One run of [main]. *)
Definition main (env_key : option str) (ui : Widgets) : M Page :=
  key_notice <- set_api_key_from_env_or_input env_key (key_input ui) ;;
  _ <- init_session ;;
  n1 <- (if gen_btn ui then on_generate ui else ret []) ;;
  n2 <- (if gen_more_btn ui then on_generate_more ui else ret []) ;;
  r <- render ui ;;
  ret {| notices := key_notice :: n1 ++ n2;
         display := fst r;
         rerun := snd r |}.

End Script.

(** ** Reading CSV

    A reader for one record under the rules of RFC 4180: fields are
    separated by commas; a field in double quotes may hold commas, line
    breaks and doubled double quotes, each pair standing for one; a
    record ends at a line break outside quotes or at the end of the
    text. The module has no reader of its own. *)

Inductive csv_state :=
| InField      (* at the start of, or inside, an unquoted field *)
| InQuoted     (* inside a quoted field *)
| AfterQuote.  (* just after a double quote met inside a quoted field *)

(** [field] is the current field in reverse, [fields] the finished ones
    in reverse; the result is the record and the text after it. *)
Fixpoint csv_read_record (s : str) (st : csv_state) (field : str)
  (fields : list str) : option (list str * str) :=
  match s with
  | [] =>
      match st with
      | InQuoted => None
      | _ => Some (rev (rev field :: fields), [])
      end
  | c :: r =>
      match st with
      | InField =>
          if char_eqb c COMMA then csv_read_record r InField [] (rev field :: fields)
          else if char_eqb c LF then Some (rev (rev field :: fields), r)
          else if char_eqb c CR then
            match r with
            | d :: r' =>
                if char_eqb d LF then Some (rev (rev field :: fields), r')
                else None
            | [] => None
            end
          else if char_eqb c DQUOTE then
            match field with
            | [] => csv_read_record r InQuoted [] fields
            | _ :: _ => None
            end
          else csv_read_record r InField (c :: field) fields
      | InQuoted =>
          if char_eqb c DQUOTE then csv_read_record r AfterQuote field fields
          else csv_read_record r InQuoted (c :: field) fields
      | AfterQuote =>
          if char_eqb c DQUOTE then csv_read_record r InQuoted (c :: field) fields
          else if char_eqb c COMMA then csv_read_record r InField [] (rev field :: fields)
          else if char_eqb c LF then Some (rev (rev field :: fields), r)
          else if char_eqb c CR then
            match r with
            | d :: r' =>
                if char_eqb d LF then Some (rev (rev field :: fields), r')
                else None
            | [] => None
            end
          else None
      end
  end.

Definition csv_decode_row (row : str) : option (list str * str) :=
  csv_read_record row InField [] [].

(** "Each embedded double quote doubled", character by character. *)
Definition double_quotes (s : str) : str :=
  flat_map (fun c => if char_eqb c DQUOTE then [DQUOTE; DQUOTE] else [c]) s.

(** ** Descriptions the facts below are stated with *)

(** The text from the first "[" to the last "]". *)
Definition bracketed (text : str) : outcome str :=
  start <- index LBRACKET text ;;
  e <- rindex RBRACKET text ;;
  Ok (slice text start (e + 1)).

(** [s] between double quotes, to write JSON text. *)
Definition quoted (s : str) : str := [DQUOTE] ++ s ++ [DQUOTE].

(** A remote service that answers its i-th request with the i-th text
    of [answers] and is unavailable afterwards. *)
Definition scripted (answers : list str) : list Request -> Request -> outcome str :=
  fun seen _ =>
    match nth_error answers (length seen) with
    | Some a => Ok a
    | None => Raise (APIError 503)
    end.

(** The world at the start of a process and of a session: the key as
    given, nothing sent yet, no session key assigned. *)
Definition fresh_world (key : option str) (answers : list str) : World :=
  {| api_key := key; service := scripted answers; calls := [];
     session_state := {| ideas := None; topic := None |} |}.

(** The user prompts and temperatures of the requests sent so far. *)
Definition user_prompts (w : World) : list (list str) :=
  map (fun r => map snd (skipn 1 (req_messages r))) (calls w).

Definition temperatures (w : World) : list float :=
  map req_temperature (calls w).

Section Descriptions.
Context {rt : Runtime}.

(** The characters the numbering loop passes over. *)
Definition numbering_char (c : char) : bool :=
  isdigit c || contains (py ".) ") c.

(** What the loop body makes of one line: bullets off, then, for a line
    starting with a digit, the leading run of numbering characters off
    and the rest trimmed. *)
Definition cleaned_line (ln : str) : str :=
  let ln := lstrip (HYPHEN :: BULLET :: SPACE :: nil) ln in
  match ln with
  | c :: _ => if isdigit c then strip (lstrip_by numbering_char ln) else ln
  | [] => ln
  end.

(** The trimmed, non-blank lines of a text. *)
Definition nonblank_lines (text : str) : list str :=
  map strip (filter (fun ln => truthy (strip ln)) (splitlines text)).

(** What the structured path yields: the ideas it returns, if it
    returns. *)
Definition json_path (text : str) : option (list str) :=
  match try_json_array text with
  | Ok r => r
  | Raise _ => None
  end.

(** The fallback path in the specification's words: a leading run of
    "-", the bullet and space is stripped; if the line then starts with
    a digit, a leading run of digits followed by any of ".", ")" and
    space is stripped; the line is kept if something is left. *)
Definition spec_strip_numbering (ln : str) : str :=
  lstrip_by (contains (py ".) ")) (lstrip_by isdigit ln).

Definition spec_cleaned_line (ln : str) : str :=
  let ln := lstrip (HYPHEN :: BULLET :: SPACE :: nil) ln in
  match ln with
  | c :: _ => if isdigit c then spec_strip_numbering ln else ln
  | [] => ln
  end.

Definition spec_fallback (text : str) : list str :=
  filter truthy (map spec_cleaned_line (nonblank_lines text)).

End Descriptions.

(** ** Sample inputs for the concrete runs *)

Definition cats : str := py "cats".
Definition general : str := py "General".
Definition practical : str := py "Practical".
Definition sample_key : option str := Some (py "sk-test").

(** A JSON array of two strings, the first of them empty. *)
Definition empty_and_a : str :=
  py "[" ++ quoted [] ++ py ", " ++ quoted (py "a") ++ py "]".

(** A JSON array of the two strings a and b. *)
Definition a_and_b : str :=
  py "[" ++ quoted (py "a") ++ py ", " ++ quoted (py "b") ++ py "]".

(** The widgets of a first run ("Generate Ideas" on the topic "cats")
    and of a second run ("Generate More" after the style, the tone and
    the temperature were changed in the sidebar). *)
Definition first_run : Widgets :=
  {| key_input := []; num_ideas := 1; temp := 0.5%float;
     style := general; tone := practical; topic_input := cats;
     gen_btn := true; gen_more_btn := false; clear_btn := false |}.

Definition second_run : Widgets :=
  {| key_input := []; num_ideas := 1; temp := 1%float;
     style := py "Listicle"; tone := py "Funny"; topic_input := [];
     gen_btn := false; gen_more_btn := true; clear_btn := false |}.

(** A session that already holds one idea on the topic "cats". *)
Definition stored_world : World :=
  set_session {| ideas := Some [py "a"]; topic := Some cats |}
    (fresh_world sample_key [py "b"]).

(** ** Further descriptions *)

(** Whether a decoding attempt gave a list whose elements are all
    strings. *)
Definition is_string_array (o : outcome json) : bool :=
  match o with
  | Ok (JList items) => forallb is_str items
  | _ => false
  end.

(** The session state once the keys "ideas" and "topic" are there: what
    the script's first lines make of it. *)
Definition initialised (s : Session) : Session :=
  match ideas s with
  | None => {| ideas := Some []; topic := Some [] |}
  | Some _ => s
  end.

(** The stored topic, empty when there is none. *)
Definition stored_topic (s : Session) : str :=
  match topic s with Some t => t | None => [] end.

Section ScriptDescriptions.
Context {rt : Runtime}.

(** The world after the key routine, the initialisation and the two
    button blocks of a run, before anything is shown. *)
Definition handled (env_key : option str) (ui : Widgets) (w : World) : World :=
  let w1 := snd (set_api_key_from_env_or_input env_key (key_input ui) w) in
  let w2 := snd (init_session w1) in
  let w3 := if gen_btn ui then snd (on_generate ui w2) else w2 in
  if gen_more_btn ui then snd (on_generate_more ui w3) else w3.

End ScriptDescriptions.

(** Reading a whole CSV text record by record; [fuel] bounds the number
    of records, and every record takes at least one character. *)
Fixpoint csv_read_all (fuel : nat) (s : str) : option (list (list str)) :=
  match fuel with
  | O => None
  | S fuel' =>
      if truthy s then
        match csv_decode_row s with
        | Some (record, rest) =>
            match csv_read_all fuel' rest with
            | Some records => Some (record :: records)
            | None => None
            end
        | None => None
        end
      else Some []
  end.

Definition csv_decode (s : str) : option (list (list str)) :=
  csv_read_all (S (length s)) s.

(** Surrogate code points, and texts without any. *)
Definition is_surrogate (c : char) : bool := (55296 <=? c) && (c <=? 57343).

Definition encodable (s : str) : bool :=
  forallb (fun c => negb (is_surrogate c)) s.

(** Texts without a line boundary. *)
Definition one_line (s : str) : bool :=
  forallb (fun c => negb (islinebreak c)) s.

(** The entries of the plain-text download: index, dot, space, idea. *)
Definition numbered_entries (ideas : list str) : list str :=
  map (fun p => str_of_int (fst p + 1) ++ py ". " ++ snd p) (enumerate ideas 0).

(** The ASCII digits. *)
Definition is_ascii_digit (c : char) : bool := (48 <=? c) && (c <=? 57).

(** Texts with no whitespace at either end. *)
Definition trimmed (s : str) : bool :=
  match s with
  | [] => true
  | c :: _ => negb (isspace c) && negb (isspace (last s c))
  end.

Section ExportDescriptions.
Context {rt : Runtime}.

(** Ideas the numbered plain-text form can carry: one non-empty line
    with no whitespace at either end, no "[" in it, and a first
    character that the numbering loop does not pass over. *)
Definition plain_idea (s : str) : bool :=
  match s with
  | [] => false
  | c :: _ =>
      negb (numbering_char c) && trimmed s && one_line s
      && negb (contains s LBRACKET)
  end.

End ExportDescriptions.

(** ** Further sample inputs *)

(** A remote service that answers every request with the same text. *)
Definition answering (raw : str) : list Request -> Request -> outcome str :=
  fun _ _ => Ok raw.

Definition answering_world (raw : str) : World :=
  {| api_key := sample_key; service := answering raw; calls := [];
     session_state := {| ideas := None; topic := None |} |}.

(** Three ideas, one per line. *)
Definition three_lines : str :=
  py "x" ++ [LF] ++ py "y" ++ [LF] ++ py "z".

(** A run with a key typed in the sidebar and no button pressed, and a
    run in which the clear button is pressed. *)
Definition keyed_run : Widgets :=
  {| key_input := py "sk-typed"; num_ideas := 1; temp := 0.5%float;
     style := general; tone := practical; topic_input := [];
     gen_btn := false; gen_more_btn := false; clear_btn := false |}.

Definition clear_run : Widgets :=
  {| key_input := []; num_ideas := 1; temp := 0.5%float;
     style := general; tone := practical; topic_input := [];
     gen_btn := false; gen_more_btn := false; clear_btn := true |}.

(** * Facts about the string methods *)

Lemma lstrip_by_split p s :
  exists pre, s = pre ++ lstrip_by p s /\ forallb p pre = true.
Proof.
  induction s as [|c r [pre [E F]]]; simpl.
  - exists []. auto.
  - destruct (p c) eqn:Pc.
    + exists (c :: pre). simpl. rewrite Pc, F. split; [f_equal; exact E | reflexivity].
    + exists []. auto.
Qed.

Lemma rstrip_by_split p s :
  exists suf, s = rstrip_by p s ++ suf /\ forallb p suf = true.
Proof.
  unfold rstrip_by. destruct (lstrip_by_split p (rev s)) as [pre [E F]].
  exists (rev pre). split.
  - rewrite <- rev_app_distr, <- E, rev_involutive. reflexivity.
  - rewrite forallb_forall in *. intros x Hx. apply F, in_rev, Hx.
Qed.

Lemma truthy_strip s : truthy (strip s) = true -> truthy s = true.
Proof. destruct s; [discriminate | reflexivity]. Qed.

Lemma getitem_skipn {A} (s : list A) i x :
  getitem s i = Ok x -> skipn i s = x :: skipn (S i) s.
Proof.
  unfold getitem. revert i.
  induction s as [|a s IH]; intros [|i]; simpl; try discriminate.
  - intros H; inversion H; reflexivity.
  - apply IH.
Qed.

Lemma getitem_in_range {A} (s : list A) i :
  (i < length s)%nat -> exists x, getitem s i = Ok x.
Proof.
  intros H. unfold getitem. destruct (nth_error s i) eqn:E; eauto.
  apply nth_error_None in E. lia.
Qed.

Lemma getitem_last_app {A} (s : list A) x : getitem_last (s ++ [x]) = Ok x.
Proof.
  unfold getitem_last, getitem. rewrite length_app. simpl.
  replace (length s + 1 - 1)%nat with (length s) by lia.
  rewrite nth_error_app2, Nat.sub_diag by lia. reflexivity.
Qed.


(** Searching and slicing across a concatenation. *)
Lemma index_absent c s : contains s c = false -> index c s = Raise ValueError.
Proof.
  induction s as [|x s IH]; simpl; [reflexivity |].
  unfold char_eqb in *. rewrite (N.eqb_sym c x).
  destruct (x =? c); simpl; [discriminate |].
  intros H. rewrite (IH H). reflexivity.
Qed.

Lemma rindex_absent c s : contains s c = false -> rindex c s = Raise ValueError.
Proof.
  induction s as [|x s IH]; simpl; [reflexivity |].
  unfold char_eqb in *. rewrite (N.eqb_sym c x).
  destruct (x =? c); simpl; [discriminate |].
  intros H. rewrite (IH H). reflexivity.
Qed.

Lemma index_app_l c pre s :
  contains pre c = false ->
  index c (pre ++ s) = (i <- index c s ;; Ok (length pre + i)%nat).
Proof.
  induction pre as [|x pre IH]; simpl.
  - intros _. destruct (index c s); reflexivity.
  - unfold char_eqb in *. rewrite (N.eqb_sym c x).
    destruct (x =? c); simpl; [discriminate |].
    intros H. rewrite (IH H). destruct (index c s); reflexivity.
Qed.

Lemma rindex_app_l c pre s :
  contains pre c = false ->
  rindex c (pre ++ s) = (i <- rindex c s ;; Ok (length pre + i)%nat).
Proof.
  induction pre as [|x pre IH]; simpl.
  - intros _. destruct (rindex c s); reflexivity.
  - unfold char_eqb in *. rewrite (N.eqb_sym c x).
    destruct (x =? c); simpl; [discriminate |].
    intros H. rewrite (IH H). destruct (rindex c s); reflexivity.
Qed.

Lemma index_app_r c s suf :
  contains suf c = false -> index c (s ++ suf) = index c s.
Proof.
  intros H. induction s as [|x s IH]; simpl.
  - apply index_absent, H.
  - rewrite IH. reflexivity.
Qed.

Lemma rindex_app_r c s suf :
  contains suf c = false -> rindex c (s ++ suf) = rindex c s.
Proof.
  intros H. induction s as [|x s IH]; simpl.
  - apply rindex_absent, H.
  - rewrite IH. reflexivity.
Qed.

Lemma rindex_bound c s e : rindex c s = Ok e -> (e < length s)%nat.
Proof.
  revert e. induction s as [|x s IH]; simpl; [discriminate |].
  intros e. destruct (rindex c s) as [i|].
  - intros H; inversion H; subst. specialize (IH i eq_refl). lia.
  - destruct (char_eqb x c); [| discriminate].
    intros H; inversion H; lia.
Qed.

Lemma slice_app_l {A} (pre s : list A) a b :
  slice (pre ++ s) (length pre + a) (length pre + b) = slice s a b.
Proof.
  unfold slice. rewrite skipn_app, skipn_all2 by lia. simpl.
  f_equal; [lia | f_equal; lia].
Qed.

Lemma slice_app_r {A} (s suf : list A) a b :
  (b <= length s)%nat -> slice (s ++ suf) a b = slice s a b.
Proof.
  intros H. unfold slice. rewrite skipn_app, firstn_app, length_skipn.
  replace (b - a - (length s - a))%nat with O by lia.
  rewrite firstn_O, app_nil_r. reflexivity.
Qed.

Lemma isspace_not_bracket c :
  isspace c = true -> char_eqb c LBRACKET = false /\ char_eqb c RBRACKET = false.
Proof.
  intros H. unfold char_eqb. split.
  - destruct (N.eqb_spec c LBRACKET); [subst; discriminate | reflexivity].
  - destruct (N.eqb_spec c RBRACKET); [subst; discriminate | reflexivity].
Qed.

Lemma contains_cons s c x : contains (c :: s) x = char_eqb x c || contains s x.
Proof. reflexivity. Qed.

Lemma char_eqb_sym a b : char_eqb a b = char_eqb b a.
Proof. apply N.eqb_sym. Qed.

Lemma spaces_no_bracket s :
  forallb isspace s = true ->
  contains s LBRACKET = false /\ contains s RBRACKET = false.
Proof.
  induction s as [|c s IH]; intros H; [split; reflexivity |].
  cbn [forallb] in H. apply andb_true_iff in H. destruct H as [Hc Hs].
  destruct (IH Hs) as [IL IR]. destruct (isspace_not_bracket c Hc) as [HL HR].
  rewrite !contains_cons, (char_eqb_sym LBRACKET), (char_eqb_sym RBRACKET).
  rewrite HL, HR, IL, IR. split; reflexivity.
Qed.

Lemma bracketed_app_l pre s :
  forallb isspace pre = true -> bracketed (pre ++ s) = bracketed s.
Proof.
  intros H. destruct (spaces_no_bracket _ H) as [HL HR]. unfold bracketed.
  rewrite (index_app_l _ _ _ HL), (rindex_app_l _ _ _ HR).
  destruct (index LBRACKET s) as [a|]; simpl; [| reflexivity].
  destruct (rindex RBRACKET s) as [b|]; simpl; [| reflexivity].
  rewrite <- Nat.add_assoc, slice_app_l. reflexivity.
Qed.

Lemma bracketed_app_r s suf :
  forallb isspace suf = true -> bracketed (s ++ suf) = bracketed s.
Proof.
  intros H. destruct (spaces_no_bracket _ H) as [HL HR]. unfold bracketed.
  rewrite (index_app_r _ _ _ HL), (rindex_app_r _ _ _ HR).
  destruct (index LBRACKET s) as [a|]; simpl; [| reflexivity].
  destruct (rindex RBRACKET s) as [b|] eqn:Eb; simpl; [| reflexivity].
  apply rindex_bound in Eb. rewrite slice_app_r by lia. reflexivity.
Qed.

(** Trimming the text does not change what lies between the brackets. *)
Lemma bracketed_strip text : bracketed (strip text) = bracketed text.
Proof.
  unfold strip.
  destruct (lstrip_by_split isspace text) as [pre [E1 F1]].
  destruct (rstrip_by_split isspace (lstrip_by isspace text)) as [suf [E2 F2]].
  rewrite E1 at 2. rewrite (bracketed_app_l _ _ F1).
  rewrite E2 at 2. rewrite (bracketed_app_r _ _ F2). reflexivity.
Qed.

(** * Facts about the response parser *)

Section ParserFacts.
Context {rt : Runtime}.

(** The loop never raises, and stops at the end of the leading run of
    numbering characters. *)
Lemma skip_numbering_run ln i :
  exists j, skip_numbering ln i = Ok j
            /\ skipn j ln = lstrip_by numbering_char (skipn i ln).
Proof.
  funelim (skip_numbering ln i).
  - exists i. split; [reflexivity |].
    rewrite skipn_all2 by lia. reflexivity.
  - change (isdigit c || contains (py ".) ") c) with (numbering_char c).
    rewrite (getitem_skipn _ _ _ Heq).
    destruct (numbering_char c) eqn:Hc.
    + replace (i + 1)%nat with (S i) in * by lia.
      destruct H as [j [Hj Hs]]. exists j. split; [exact Hj |].
      simpl. rewrite Hc. exact Hs.
    + exists i. split; [reflexivity |].
      simpl. rewrite Hc. apply getitem_skipn. exact Heq.
  - destruct (getitem_in_range ln i l) as [x Hx]. congruence.
Qed.

Lemma clean_line_ok ln : clean_line ln = Ok (cleaned_line ln).
Proof.
  unfold clean_line, cleaned_line.
  destruct (lstrip _ ln) as [|c r] eqn:E; simpl; [reflexivity |].
  destruct (isdigit c); [| reflexivity].
  destruct (skip_numbering_run (c :: r) 0) as [j [Hj Hs]].
  rewrite Hj. simpl. rewrite Hs. reflexivity.
Qed.

Lemma clean_lines_ok lines cleaned :
  clean_lines lines cleaned
  = Ok (cleaned ++ filter truthy (map cleaned_line lines)).
Proof.
  revert cleaned. induction lines as [|ln rest IH]; intros cleaned; simpl.
  - rewrite app_nil_r. reflexivity.
  - rewrite clean_line_ok. simpl. rewrite IH.
    destruct (truthy (cleaned_line ln)); [rewrite <- app_assoc |]; reflexivity.
Qed.

Lemma fallback_lines_ok text :
  fallback_lines text
  = Ok (filter truthy (map cleaned_line (nonblank_lines text))).
Proof. unfold fallback_lines. rewrite clean_lines_ok. reflexivity. Qed.


Lemma json_candidate_bracketed text :
  json_candidate text = (c <- bracketed text ;; json_loads c).
Proof.
  unfold json_candidate, bracketed.
  destruct (index LBRACKET text); simpl; [| reflexivity].
  destruct (rindex RBRACKET text); reflexivity.
Qed.

Lemma strings_of_map strs : strings_of (map JStr strs) = Some strs.
Proof. induction strs as [|s r IH]; simpl; [| rewrite IH]; reflexivity. Qed.

(** [strings_of] succeeds exactly when every element is a [str], and
    then gives the elements themselves. *)
Lemma strings_of_all items :
  forallb is_str items = true <->
  exists strs, strings_of items = Some strs /\ items = map JStr strs.
Proof.
  induction items as [|v r IH]; simpl.
  - split; [exists []; auto | reflexivity].
  - destruct v; simpl; try (split; [discriminate | intros [l [H _]]; discriminate]).
    rewrite IH. split.
    + intros [l [H E]]. exists (s :: l). rewrite H, E. auto.
    + intros [l [H E]]. destruct (strings_of r) as [l'|]; [| discriminate].
      exists l'. split; [reflexivity |].
      inversion H; subst. simpl in E. inversion E. reflexivity.
Qed.

(** Trimming every string and dropping the empty results is what the
    comprehension computes. *)
Lemma stripped_nonempty_filter strs :
  stripped_nonempty strs = filter truthy (map strip strs).
Proof.
  unfold stripped_nonempty. induction strs as [|s r IH]; simpl; [reflexivity |].
  destruct (truthy (strip s)) eqn:E.
  - rewrite (truthy_strip _ E). simpl. rewrite IH. reflexivity.
  - rewrite andb_false_r. exact IH.
Qed.

Lemma extract_json_array_paths text :
  extract_json_array text =
  match json_path (strip text) with
  | Some ideas => Ok ideas
  | None => fallback_lines (strip text)
  end.
Proof.
  unfold extract_json_array, json_path.
  destruct (try_json_array (strip text)) as [[l|]|e]; reflexivity.
Qed.

(** The structured path returns when the bracketed part of the text
    decodes to strings. *)
Lemma json_path_strings text strs :
  (c <- bracketed text ;; json_loads c) = Ok (JList (map JStr strs)) ->
  json_path (strip text) = Some (stripped_nonempty strs).
Proof.
  intros H. unfold json_path, try_json_array.
  rewrite json_candidate_bracketed, bracketed_strip, H. simpl.
  rewrite strings_of_map. reflexivity.
Qed.

(** C3: for every input text, whatever the decoder and the digit table
    do, [extract_json_array] returns a list and raises nothing; for the
    empty text it returns the empty list. *)
Theorem extract_json_array_never_raises (text : str) :
  (exists ideas, extract_json_array text = Ok ideas)
  /\ extract_json_array [] = Ok [].
Proof.
  split; [| reflexivity].
  rewrite extract_json_array_paths.
  destruct (json_path (strip text)) as [ideas|]; [eauto |].
  rewrite fallback_lines_ok. eauto.
Qed.

(** C2: when the text from the first "[" to the last "]" of the input
    decodes to a list whose elements are all strings, the result is
    those strings, each trimmed, without the ones that are empty after
    trimming, in the order of the array. *)
Theorem extract_json_array_of_strings (text : str) (strs : list str) :
  (c <- bracketed text ;; json_loads c) = Ok (JList (map JStr strs)) ->
  extract_json_array text = Ok (filter truthy (map strip strs)).
Proof.
  intros H. rewrite extract_json_array_paths.
  rewrite (json_path_strings _ _ H), stripped_nonempty_filter. reflexivity.
Qed.

(** C6 (amended): when the structured path does not return, the result
    is made of the trimmed non-blank lines of the trimmed text, each
    with its leading run of "-", bullet and space removed and then, if
    it starts with a digit, with its longest leading run of digits, ".",
    ")" and space (in any order) removed and the rest trimmed of
    whitespace; lines left empty are dropped. *)
Theorem fallback_strips_bullets_and_numbering (text : str) :
  json_path (strip text) = None ->
  extract_json_array text
  = Ok (filter truthy (map cleaned_line (nonblank_lines (strip text)))).
Proof.
  intros H. rewrite extract_json_array_paths, H. apply fallback_lines_ok.
Qed.

End ParserFacts.

(** * Facts about the idea generator *)

Lemma len_app {A} (a b : list A) : len (a ++ b) = (len a + len b)%Z.
Proof. unfold len. rewrite length_app. lia. Qed.

Lemma len_repeat {A} (x : A) k : len (repeat x k) = Z.of_nat k.
Proof. unfold len. rewrite repeat_length. reflexivity. Qed.

Lemma getitem_last_ok {A} (s : list A) x d :
  getitem_last s = Ok x -> x = last s d /\ s <> [].
Proof.
  destruct s as [|a s] using rev_ind.
  - discriminate.
  - rewrite getitem_last_app, last_last. intros H; inversion H.
    split; [reflexivity | intros E; destruct s; discriminate].
Qed.

Lemma getitem_last_nonempty {A} (s : list A) :
  truthy s = true -> exists x, getitem_last s = Ok x.
Proof.
  destruct s as [|a s] using rev_ind; [discriminate |].
  intros _. exists a. apply getitem_last_app.
Qed.

(** Starting from a non-empty list, the padding loop appends copies of
    the last element until the list has [n] elements. *)
Lemma pad_loop_nonempty topic n result :
  truthy result = true ->
  pad_loop topic n result
  = Ok (result ++ repeat (last result []) (Z.to_nat (n - len result))).
Proof.
  funelim (pad_loop topic n result); intros Hne.
  - replace (Z.to_nat (n - len result)) with O by lia.
    rewrite app_nil_r. reflexivity.
  - congruence.
  - destruct (getitem_last_ok _ _ [] Heq) as [-> _].
    rewrite app_nil_r in *. rewrite H.
    + rewrite last_last, len_app, <- app_assoc. f_equal. f_equal.
      replace (Z.to_nat (n - len result))
        with (S (Z.to_nat (n - (len result + len [last result []]))))
        by (unfold len; simpl; unfold len in l; lia).
      reflexivity.
    + destruct result; reflexivity.
  - destruct (getitem_last_nonempty _ Hne) as [x Hx]. congruence.
Qed.

(** Starting from the empty list, it yields [n] copies of the
    placeholder numbered 1. *)
Lemma pad_loop_empty topic n :
  pad_loop topic n []
  = Ok (repeat (topic ++ py " - idea 1") (Z.to_nat n)).
Proof.
  rewrite pad_loop_equation_1. simpl.
  destruct (Z_lt_dec (len []) n) as [l|l]; simpl.
  - rewrite pad_loop_nonempty by reflexivity. simpl.
    unfold placeholder. simpl.
    replace (Z.to_nat n) with (S (Z.to_nat (n - len [topic ++ py " - idea 1"])))
      by (unfold len in *; simpl in *; lia).
    reflexivity.
  - replace (Z.to_nat n) with O by (unfold len in *; simpl in *; lia).
    reflexivity.
Qed.

Lemma call_openai_chat_with_key prompt temperature w :
  key_set (api_key w) = true ->
  call_openai_chat prompt temperature w
  = (service w (calls w) (chat_request prompt temperature),
     log_call (chat_request prompt temperature) w).
Proof. intros H. unfold call_openai_chat. rewrite H. reflexivity. Qed.

Lemma call_openai_chat_without_key prompt temperature w :
  key_set (api_key w) = false ->
  call_openai_chat prompt temperature w
  = (Raise (RuntimeError (py "OpenAI API key is not set.")), w).
Proof. intros H. unfold call_openai_chat. rewrite H. reflexivity. Qed.

Section GeneratorFacts.
Context {rt : Runtime}.

(** The world [generate_ideas] leaves is the one it started in with
    nothing, the primary request, or the primary and then the
    reinforced request added to the log. *)
Lemma generate_ideas_world
  (topic : str) (n : Z) (style tone : str) (temperature : float) (w : World) :
  let req1 := chat_request (primary_prompt topic n style tone) temperature in
  let req2 := chat_request (fallback_prompt topic n style tone) temperature in
  let w' := snd (generate_ideas topic n style tone temperature w) in
  w' = w \/ w' = log_call req1 w \/ w' = log_call req2 (log_call req1 w).
Proof.
  cbv zeta. unfold generate_ideas, bindM, lift, ret, call_openai_chat.
  destruct (key_set (api_key w)) eqn:K; cbn [negb]; [| auto].
  destruct (service w (calls w) _) as [raw|e]; [| auto].
  destruct (extract_json_array raw) as [found|e]; [| auto].
  destruct (n <=? len found)%Z; [auto |].
  destruct (len found <? n)%Z; [| destruct (pad_loop topic n found); auto].
  cbn [api_key log_call]. rewrite K. cbn [negb].
  destruct (service _ _ _) as [raw2|e]; [| auto].
  destruct (extract_json_array raw2) as [found2|e]; [| auto].
  destruct (n <=? len found2)%Z; [auto |].
  destruct (pad_loop topic n found); auto.
Qed.

(** C4: one invocation of [generate_ideas] sends at most two requests to
    the remote service, whatever the service answers and whether or not
    a key is set. *)
Theorem generate_ideas_at_most_two_calls
  (topic : str) (n : Z) (style tone : str) (temperature : float) (w : World) :
  (length (calls (snd (generate_ideas topic n style tone temperature w)))
   <= length (calls w) + 2)%nat.
Proof.
  destruct (generate_ideas_world topic n style tone temperature w)
    as [-> | [-> | ->]]; cbn [calls log_call]; rewrite ?length_app; simpl; lia.
Qed.

(** In a process in which [openai.api_key] has not been set: with no
    key in the environment and none typed in the sidebar, a generation
    call fails at once with [RuntimeError("OpenAI API key is not set.")]
    and the remote service is not called. *)
Theorem generate_ideas_without_key
  (env_key : option str) (input_key : str)
  (topic : str) (n : Z) (style tone : str) (temperature : float) (w : World) :
  key_set (api_key w) = false ->
  key_set env_key = false ->
  truthy input_key = false ->
  let w1 := snd (set_api_key_from_env_or_input env_key input_key w) in
  generate_ideas topic n style tone temperature w1
  = (Raise (RuntimeError (py "OpenAI API key is not set.")), w1)
  /\ calls w1 = calls w.
Proof.
  intros Hw He Hi. unfold set_api_key_from_env_or_input.
  rewrite Hi, He. simpl. split; [| reflexivity].
  unfold generate_ideas, bindM.
  rewrite call_openai_chat_without_key by exact Hw. reflexivity.
Qed.

(** C5 (amended): when a key is set and the service answers the first
    request with a text whose bracketed part decodes to an array of
    exactly [n] strings, none of them empty after trimming, the result
    is those [n] strings, each trimmed, and exactly one request is
    sent. *)
Theorem generate_ideas_exact_answer
  (topic : str) (n : Z) (style tone : str) (temperature : float) (w : World)
  (raw : str) (strs : list str) :
  key_set (api_key w) = true ->
  service w (calls w)
    (chat_request (primary_prompt topic n style tone) temperature) = Ok raw ->
  (c <- bracketed raw ;; json_loads c) = Ok (JList (map JStr strs)) ->
  len strs = n ->
  forallb (fun s => truthy (strip s)) strs = true ->
  exists w',
    generate_ideas topic n style tone temperature w = (Ok (map strip strs), w')
    /\ calls w'
       = calls w ++ [chat_request (primary_prompt topic n style tone) temperature].
Proof.
  intros Hkey Hsvc Hdec Hlen Hne.
  exists (log_call (chat_request (primary_prompt topic n style tone) temperature) w).
  split; [| reflexivity].
  unfold generate_ideas, bindM, lift, ret.
  rewrite call_openai_chat_with_key, Hsvc by exact Hkey.
  rewrite extract_json_array_paths, (json_path_strings _ _ Hdec).
  rewrite stripped_nonempty_filter.
  assert (Hall : filter truthy (map strip strs) = map strip strs).
  { clear -Hne. induction strs as [|s r IH]; simpl in *; [reflexivity |].
    apply andb_true_iff in Hne. destruct Hne as [Hs Hr].
    rewrite Hs, (IH Hr). reflexivity. }
  rewrite Hall.
  assert (Hn : len (map strip strs) = n)
    by (unfold len in *; rewrite length_map; exact Hlen).
  rewrite Hn, Z.leb_refl. unfold slice_to.
  destruct (0 <=? n)%Z eqn:E; [| unfold len in Hn; lia].
  rewrite <- Hn. unfold len. rewrite Nat2Z.id, firstn_all. reflexivity.
Qed.

Section ShortTwice.

(** Both calls succeed and both answers parse to fewer than [n] ideas. *)
Variables (topic : str) (n : Z) (style tone : str) (temperature : float).
Variables (w : World) (raw1 raw2 : str) (ideas1 ideas2 : list str).

Let req1 := chat_request (primary_prompt topic n style tone) temperature.
Let req2 := chat_request (fallback_prompt topic n style tone) temperature.

Hypothesis key : key_set (api_key w) = true.
Hypothesis answer1 : service w (calls w) req1 = Ok raw1.
Hypothesis answer2 : service w (calls w ++ [req1]) req2 = Ok raw2.
Hypothesis parsed1 : extract_json_array raw1 = Ok ideas1.
Hypothesis parsed2 : extract_json_array raw2 = Ok ideas2.
Hypothesis short1 : (len ideas1 < n)%Z.
Hypothesis short2 : (len ideas2 < n)%Z.

(** The result is then the padding of the first answer's ideas. *)
Lemma generate_ideas_pads :
  generate_ideas topic n style tone temperature w
  = (pad_loop topic n ideas1, log_call req2 (log_call req1 w)).
Proof.
  unfold generate_ideas, bindM, lift, ret.
  rewrite call_openai_chat_with_key by exact key.
  fold req1. rewrite answer1, parsed1.
  replace (n <=? len ideas1)%Z with false by (symmetry; apply Z.leb_gt; lia).
  replace (len ideas1 <? n)%Z with true by (symmetry; apply Z.ltb_lt; lia).
  rewrite call_openai_chat_with_key by exact key.
  cbn [service calls log_call]. fold req1 req2. rewrite answer2, parsed2.
  replace (n <=? len ideas2)%Z with false by (symmetry; apply Z.leb_gt; lia).
  reflexivity.
Qed.

(** C10: if the first answer parsed to [k] ideas with [1 <= k < n], the
    result is those [k] ideas followed by [n - k] copies of the last of
    them; the second answer's ideas do not occur in it. *)
Theorem generate_ideas_repeats_last :
  (1 <= len ideas1)%Z ->
  generate_ideas topic n style tone temperature w
  = (Ok (ideas1 ++ repeat (last ideas1 []) (Z.to_nat (n - len ideas1))),
     log_call req2 (log_call req1 w)).
Proof.
  intros Hk. rewrite generate_ideas_pads, pad_loop_nonempty; [reflexivity |].
  destruct ideas1; [unfold len in Hk; simpl in Hk; lia | reflexivity].
Qed.

(** C1 (amended): the result has exactly [n] elements and starts with
    the [k] ideas parsed from the first answer; for [k >= 1] the other
    [n - k] elements are copies of the [k]-th idea, and for [k = 0] the
    list starts with the placeholder "{topic} - idea 1". *)
Theorem generate_ideas_padded :
  (1 <= n)%Z ->
  exists result,
    generate_ideas topic n style tone temperature w
    = (Ok result, log_call req2 (log_call req1 w))
    /\ len result = n
    /\ firstn (length ideas1) result = ideas1
    /\ (1 <= len ideas1 ->
        skipn (length ideas1) result
        = repeat (last ideas1 []) (Z.to_nat (n - len ideas1)))%Z
    /\ (len ideas1 = 0%Z ->
        nth_error result 0 = Some (topic ++ py " - idea 1")).
Proof.
  intros Hn. rewrite generate_ideas_pads.
  destruct ideas1 as [|i r] eqn:E.
  - rewrite pad_loop_empty. eexists. split; [reflexivity |].
    rewrite len_repeat. repeat split.
    + lia.
    + unfold len; simpl; lia.
    + intros _. destruct (Z.to_nat n) eqn:En; [lia | reflexivity].
  - rewrite pad_loop_nonempty by reflexivity. eexists. split; [reflexivity |].
    rewrite len_app, len_repeat. repeat split.
    + rewrite <- E in *. lia.
    + rewrite firstn_app, Nat.sub_diag, firstn_all, firstn_O, app_nil_r.
      reflexivity.
    + intros _. rewrite skipn_app, Nat.sub_diag, skipn_all. reflexivity.
    + unfold len; simpl; lia.
Qed.

End ShortTwice.

End GeneratorFacts.

(** * Facts about the page script *)

Section ScriptFacts.
Context {rt : Runtime}.

(** Generating leaves the session state alone. *)
Lemma generate_ideas_session topic n style tone temperature w :
  session_state (snd (generate_ideas topic n style tone temperature w))
  = session_state w.
Proof.
  destruct (generate_ideas_world topic n style tone temperature w)
    as [-> | [-> | ->]]; reflexivity.
Qed.

Lemma set_api_key_ok env_key input_key w :
  exists k,
    set_api_key_from_env_or_input env_key input_key w
    = (Ok k, snd (set_api_key_from_env_or_input env_key input_key w))
    /\ session_state (snd (set_api_key_from_env_or_input env_key input_key w))
       = session_state w.
Proof.
  unfold set_api_key_from_env_or_input.
  destruct (truthy input_key); [eexists; split; reflexivity |].
  destruct (key_set env_key); [destruct env_key |]; eexists; split; reflexivity.
Qed.

Lemma init_session_present w l :
  ideas (session_state w) = Some l -> init_session w = (Ok tt, w).
Proof. intros H. unfold init_session. rewrite H. reflexivity. Qed.

(** With the clear button not pressed, showing the list changes
    nothing, whether or not the export can be encoded. *)
Lemma render_frame ui w : clear_btn ui = false -> snd (render ui w) = w.
Proof.
  intros H. unfold render, bindM, read_ideas, lift, ret.
  destruct (ideas (session_state w)) as [l|]; [| reflexivity].
  destruct (truthy l); [| reflexivity].
  destruct (encode_utf8 (csv_export l)); [rewrite H |]; reflexivity.
Qed.

(** A successful "Generate Ideas" replaces the list and stores the
    topic it used. *)
Lemma on_generate_stores ui w new w' :
  truthy (topic_input ui) = true ->
  generate_ideas (topic_input ui) (num_ideas ui) (style ui) (tone ui)
    (temp ui) w = (Ok new, w') ->
  on_generate ui w
  = (Ok [Generated (length new)],
     set_session {| ideas := Some new; topic := Some (topic_input ui) |} w').
Proof.
  intros Ht Hg. unfold on_generate, try_exceptM, bindM.
  rewrite Ht. cbn [negb]. rewrite Hg. reflexivity.
Qed.

(** The [if gen_more_btn:] block with a stored topic. *)
Lemma on_generate_more_run ui w stored t :
  session_state w = {| ideas := Some stored; topic := Some t |} ->
  truthy t = true ->
  on_generate_more ui w
  = match generate_ideas t (num_ideas ui) (style ui) (tone ui) (temp ui) w with
    | (Ok more, w2) =>
        (Ok [Appended (length more) (length (stored ++ more))],
         set_session {| ideas := Some (stored ++ more); topic := Some t |} w2)
    | (Raise e, w2) => (Ok [ShownException e], w2)
    end.
Proof.
  intros Hs Ht. unfold on_generate_more, try_exceptM, bindM, read_topic.
  rewrite Hs. cbn [topic]. rewrite Ht. cbn [negb]. rewrite Hs. cbn [topic].
  pose proof (generate_ideas_session t (num_ideas ui) (style ui) (tone ui)
                (temp ui) w) as Hf.
  destruct (generate_ideas t (num_ideas ui) (style ui) (tone ui) (temp ui) w)
    as [[more|e] w2]; [| reflexivity].
  cbn [snd] in Hf. rewrite Hs in Hf.
  unfold read_ideas, write_ideas, ret. rewrite !Hf. cbn. rewrite ?Hf. reflexivity.
Qed.

(** A run in which only "Generate More" is pressed. *)
Lemma main_generate_more env_key ui w stored t :
  gen_btn ui = false ->
  gen_more_btn ui = true ->
  clear_btn ui = false ->
  session_state w = {| ideas := Some stored; topic := Some t |} ->
  truthy t = true ->
  snd (main env_key ui w)
  = match generate_ideas t (num_ideas ui) (style ui) (tone ui) (temp ui)
            (snd (set_api_key_from_env_or_input env_key (key_input ui) w)) with
    | (Ok more, w2) =>
        set_session {| ideas := Some (stored ++ more); topic := Some t |} w2
    | (Raise e, w2) => w2
    end.
Proof.
  intros Hg Hm Hc Hs Ht.
  destruct (set_api_key_ok env_key (key_input ui) w) as [k [Ek Hk]].
  set (w1 := snd (set_api_key_from_env_or_input env_key (key_input ui) w)) in *.
  rewrite Hs in Hk. unfold main, bindM. rewrite Ek.
  rewrite (init_session_present _ stored) by (rewrite Hk; reflexivity).
  rewrite Hg, Hm. unfold ret at 1.
  rewrite (on_generate_more_run _ _ _ _ Hk Ht).
  destruct (generate_ideas t (num_ideas ui) (style ui) (tone ui) (temp ui) _)
    as [[more|e] w2].
  - pose proof (render_frame ui
        (set_session {| ideas := Some (stored ++ more); topic := Some t |} w2) Hc)
      as Hr.
    destruct (render ui _) as [[r|e] w3]; cbn [snd] in *; exact Hr.
  - pose proof (render_frame ui w2 Hc) as Hr.
    destruct (render ui _) as [[r|e'] w3]; cbn [snd] in *; exact Hr.
Qed.

(** C7 (amended): a run in which only "Generate More" is pressed, with a
    stored topic, invokes [generate_ideas] with the stored topic and
    with the count, style, tone and temperature the widgets hold in that
    run; on success the result is appended to the stored list and the
    topic is kept, on failure the session state is unchanged. *)
Theorem generate_more_appends
  (env_key : option str) (ui : Widgets) (w : World)
  (stored : list str) (t : str) :
  gen_btn ui = false ->
  gen_more_btn ui = true ->
  clear_btn ui = false ->
  session_state w = {| ideas := Some stored; topic := Some t |} ->
  truthy t = true ->
  let w1 := snd (set_api_key_from_env_or_input env_key (key_input ui) w) in
  match generate_ideas t (num_ideas ui) (style ui) (tone ui) (temp ui) w1 with
  | (Ok more, w2) =>
      snd (main env_key ui w)
      = set_session {| ideas := Some (stored ++ more); topic := Some t |} w2
  | (Raise e, w2) =>
      snd (main env_key ui w) = w2 /\ session_state w2 = session_state w
  end.
Proof.
  intros Hg Hm Hc Hs Ht. cbv zeta.
  rewrite (main_generate_more env_key ui w stored t Hg Hm Hc Hs Ht).
  pose proof (generate_ideas_session t (num_ideas ui) (style ui) (tone ui)
                (temp ui)
                (snd (set_api_key_from_env_or_input env_key (key_input ui) w)))
    as Hf.
  destruct (set_api_key_ok env_key (key_input ui) w) as [k [_ Hk]].
  destruct (generate_ideas t (num_ideas ui) (style ui) (tone ui) (temp ui) _)
    as [[more|e] w2]; [reflexivity |].
  split; [reflexivity |]. cbn [snd] in Hf. congruence.
Qed.

End ScriptFacts.

(** * Facts about the CSV export *)

Lemma startswith_nil s : startswith s [] = true.
Proof. destruct s; reflexivity. Qed.

Lemma replace_quote s :
  replace [DQUOTE] [DQUOTE; DQUOTE] s = double_quotes s.
Proof.
  unfold replace. induction s as [|c r IH]; [reflexivity |].
  cbn [replace_aux startswith double_quotes flat_map length Nat.sub].
  fold (double_quotes r).
  rewrite startswith_nil, andb_true_r, (char_eqb_sym DQUOTE c), IH.
  destruct (char_eqb c DQUOTE); reflexivity.
Qed.

(** Reading the inside of a quoted field gives back the text that was
    escaped. *)
Lemma csv_read_quoted it field fields rest :
  csv_read_record (double_quotes it ++ DQUOTE :: LF :: rest) InQuoted field fields
  = Some (rev (rev (rev it ++ field) :: fields), rest).
Proof.
  revert field. induction it as [|c r IH]; intros field.
  - reflexivity.
  - cbn [double_quotes flat_map]. fold (double_quotes r).
    destruct (char_eqb c DQUOTE) eqn:E.
    + apply N.eqb_eq in E. subst c.
      cbn [app csv_read_record]. change (char_eqb DQUOTE DQUOTE) with true.
      cbn iota. rewrite IH. cbn [rev]. rewrite <- app_assoc. reflexivity.
    + cbn [app csv_read_record]. rewrite E. rewrite IH.
      cbn [rev]. rewrite <- app_assoc. reflexivity.
Qed.

(** Digits and the minus sign are read as they stand. *)
Lemma csv_read_digits d field fields rest :
  csv_read_record (digits_of_uint d ++ rest) InField field fields
  = csv_read_record rest InField (rev (digits_of_uint d) ++ field) fields.
Proof.
  revert field.
  induction d as [|d IH|d IH|d IH|d IH|d IH|d IH|d IH|d IH|d IH|d IH];
    intros field; [reflexivity | ..];
    cbn [digits_of_uint app csv_read_record rev];
    rewrite <- app_assoc;
    match goal with
    | |- context [char_eqb ?c COMMA] =>
        change (char_eqb c COMMA) with false;
        change (char_eqb c LF) with false;
        change (char_eqb c CR) with false;
        change (char_eqb c DQUOTE) with false
    end; cbn iota; apply IH.
Qed.

Lemma csv_read_int n field fields rest :
  csv_read_record (str_of_int n ++ rest) InField field fields
  = csv_read_record rest InField (rev (str_of_int n) ++ field) fields.
Proof.
  unfold str_of_int. destruct (Z.to_int n) as [d|d].
  - apply csv_read_digits.
  - cbn [app csv_read_record rev].
    change (char_eqb HYPHEN COMMA) with false.
    change (char_eqb HYPHEN LF) with false.
    change (char_eqb HYPHEN CR) with false.
    change (char_eqb HYPHEN DQUOTE) with false. cbn iota.
    rewrite csv_read_digits, <- app_assoc. reflexivity.
Qed.

(** A row, followed by any text, reads back as its index and its idea. *)
Lemma csv_row_read idx it rest :
  csv_decode_row (csv_row idx it ++ rest) = Some ([str_of_int idx; it], rest).
Proof.
  unfold csv_decode_row, csv_row. rewrite replace_quote.
  rewrite <- !app_assoc, csv_read_int. cbn [app csv_read_record].
  change (char_eqb COMMA COMMA) with true. cbn iota.
  change (char_eqb DQUOTE COMMA) with false.
  change (char_eqb DQUOTE LF) with false.
  change (char_eqb DQUOTE CR) with false.
  change (char_eqb DQUOTE DQUOTE) with true. cbn iota.
  rewrite csv_read_quoted. rewrite !app_nil_r, !rev_involutive. reflexivity.
Qed.

(** C9: a row of the CSV export is the index, a comma and the idea
    between double quotes with each double quote of the idea doubled,
    and reading the row under the CSV rules gives back the index and
    the idea, character for character; this holds for every idea, with
    or without double quotes in it. *)
Theorem csv_row_round_trip (idx : Z) (it : str) :
  csv_row idx it
  = str_of_int idx ++ [COMMA] ++ quoted (double_quotes it) ++ [LF]
  /\ csv_decode_row (csv_row idx it) = Some ([str_of_int idx; it], []).
Proof.
  split.
  - unfold csv_row, quoted. rewrite replace_quote, <- !app_assoc. reflexivity.
  - rewrite <- (app_nil_r (csv_row idx it)). apply csv_row_read.
Qed.

(** * Further facts about the parser and the generator *)

Lemma slice_to_len {A} (l : list A) n :
  (0 <= n <= len l)%Z -> len (slice_to l n) = n.
Proof.
  intros H. unfold slice_to, len in *.
  replace (0 <=? n)%Z with true by (symmetry; apply Z.leb_le; lia).
  rewrite length_firstn. lia.
Qed.

Lemma forallb_firstn {A} (p : A -> bool) k l :
  forallb p l = true -> forallb p (firstn k l) = true.
Proof.
  revert k. induction l as [|x l IH]; intros [|k]; simpl; auto.
  intros H. apply andb_true_iff in H. destruct H as [Hx Hl].
  rewrite Hx. simpl. apply IH, Hl.
Qed.

Lemma forallb_slice_to {A} (p : A -> bool) l n :
  forallb p l = true -> forallb p (slice_to l n) = true.
Proof. intros H. unfold slice_to. destruct (0 <=? n)%Z; apply forallb_firstn, H. Qed.

Lemma forallb_repeat {A} (p : A -> bool) x k :
  p x = true -> forallb p (repeat x k) = true.
Proof. intros H. induction k as [|k IH]; simpl; [| rewrite H, IH]; reflexivity. Qed.

Lemma forallb_last {A} (p : A -> bool) l d :
  forallb p l = true -> truthy l = true -> p (last l d) = true.
Proof.
  induction l as [|x l IH]; [discriminate |].
  intros H _. cbn [forallb] in H. apply andb_true_iff in H. destruct H as [Hx Hl].
  destruct l as [|y l']; [exact Hx |]. apply IH; [exact Hl | reflexivity].
Qed.

(** The padding loop never raises; it leaves a list that is long enough
    alone and otherwise returns exactly [n] elements, the first of them
    the ones it was given. *)
Lemma pad_loop_result topic n found :
  exists result,
    pad_loop topic n found = Ok result
    /\ len result = Z.max n (len found)
    /\ firstn (length found) result = found
    /\ (forallb truthy found = true -> forallb truthy result = true).
Proof.
  destruct found as [|i r] eqn:E.
  - rewrite pad_loop_empty. eexists. split; [reflexivity |].
    rewrite len_repeat. repeat split.
    + unfold len. simpl. lia.
    + intros _. apply forallb_repeat. destruct topic; reflexivity.
  - rewrite pad_loop_nonempty by reflexivity. eexists. split; [reflexivity |].
    rewrite len_app, len_repeat. repeat split.
    + lia.
    + rewrite firstn_app, Nat.sub_diag, firstn_all, firstn_O, app_nil_r.
      reflexivity.
    + intros H. rewrite forallb_app. apply andb_true_iff. split; [exact H |].
      apply forallb_repeat, forallb_last; [exact H | reflexivity].
Qed.

Section MoreParserFacts.
Context {rt : Runtime}.

Lemma stripped_nonempty_truthy strs :
  forallb truthy (stripped_nonempty strs) = true.
Proof.
  rewrite stripped_nonempty_filter.
  induction (map strip strs) as [|s r IH]; simpl; [reflexivity |].
  destruct (truthy s) eqn:E; simpl; [rewrite E |]; exact IH.
Qed.

Lemma filter_truthy_truthy (l : list str) : forallb truthy (filter truthy l) = true.
Proof.
  induction l as [|s r IH]; simpl; [reflexivity |].
  destruct (truthy s) eqn:E; simpl; [rewrite E |]; exact IH.
Qed.

Lemma strings_of_some items strs :
  strings_of items = Some strs -> items = map JStr strs.
Proof.
  revert strs. induction items as [|v r IH]; intros strs; simpl.
  - intros H; inversion H; reflexivity.
  - destruct v; try discriminate.
    destruct (strings_of r) as [l|]; [| discriminate].
    intros H; inversion H; subst. simpl. f_equal. apply IH. reflexivity.
Qed.

(** What the structured path returns is the comprehension over some
    list of strings. *)
Lemma json_path_some text found :
  json_path text = Some found -> exists strs, found = stripped_nonempty strs.
Proof.
  unfold json_path, try_json_array.
  destruct (json_candidate text) as [[| | | |items|]|e]; simpl; try discriminate.
  destruct (strings_of items) as [strs|]; [| discriminate].
  intros H. inversion H. eauto.
Qed.

Lemma extract_json_array_truthy text found :
  extract_json_array text = Ok found -> forallb truthy found = true.
Proof.
  rewrite extract_json_array_paths.
  destruct (json_path (strip text)) as [l|] eqn:E.
  - intros H. inversion H; subst.
    destruct (json_path_some _ _ E) as [strs ->]. apply stripped_nonempty_truthy.
  - rewrite fallback_lines_ok. intros H. inversion H. apply filter_truthy_truthy.
Qed.

Lemma extract_json_array_ideas_found text :
  exists found, extract_json_array text = Ok found.
Proof.
  rewrite extract_json_array_paths.
  destruct (json_path (strip text)); [eauto |].
  rewrite fallback_lines_ok. eauto.
Qed.

(** X1: For every text, decoder and digit table the parser returns a list,
    and every idea in it is a non-empty string, on both paths. *)
Theorem extract_json_array_ideas_nonempty (text : str) :
  exists found,
    extract_json_array text = Ok found /\ forallb truthy found = true.
Proof.
  destruct (extract_json_array_ideas_found text) as [found E].
  exists found. split; [exact E | exact (extract_json_array_truthy _ _ E)].
Qed.

(** X2: When the bracketed part of the text is missing, does not decode, or
    decodes to anything but a list of strings, the result is the
    line-by-line reading of the whole trimmed text. *)
Theorem extract_json_array_falls_back (text : str) :
  is_string_array (c <- bracketed text ;; json_loads c) = false ->
  extract_json_array text
  = Ok (filter truthy (map cleaned_line (nonblank_lines (strip text)))).
Proof.
  intros H. rewrite extract_json_array_paths.
  replace (json_path (strip text)) with (@None (list str)).
  - apply fallback_lines_ok.
  - unfold json_path, try_json_array.
    rewrite json_candidate_bracketed, bracketed_strip.
    unfold is_string_array in H.
    destruct (c <- bracketed text ;; json_loads c) as [[| | | |items|]|e];
      simpl; try reflexivity.
    destruct (strings_of items) as [strs|] eqn:S; [| reflexivity].
    assert (forallb is_str items = true)
      by (apply strings_of_all; exists strs; split;
          [exact S | apply strings_of_some, S]).
    congruence.
Qed.

End MoreParserFacts.

Section MoreGeneratorFacts.
Context {rt : Runtime}.

Variables (topic : str) (n : Z) (style tone : str) (temperature : float).
Variable w : World.

Let req1 := chat_request (primary_prompt topic n style tone) temperature.
Let req2 := chat_request (fallback_prompt topic n style tone) temperature.

(** X3: Whatever [generate_ideas] returns for a count that is not negative
    has exactly that many elements. *)
Theorem generate_ideas_length (result : list str) :
  (0 <= n)%Z ->
  fst (generate_ideas topic n style tone temperature w) = Ok result ->
  len result = n.
Proof.
  intros Hn. unfold generate_ideas, bindM, lift, ret.
  destruct (call_openai_chat _ temperature w) as [[raw|e] w1]; [| discriminate].
  destruct (extract_json_array raw) as [found|e]; [| discriminate].
  destruct (n <=? len found)%Z eqn:L1.
  { intros H; inversion H. apply slice_to_len. apply Z.leb_le in L1. lia. }
  apply Z.leb_gt in L1.
  replace (len found <? n)%Z with true by (symmetry; apply Z.ltb_lt; lia).
  destruct (call_openai_chat _ temperature w1) as [[raw2|e] w2]; [| discriminate].
  destruct (extract_json_array raw2) as [found2|e]; [| discriminate].
  destruct (n <=? len found2)%Z eqn:L2.
  { intros H; inversion H. apply slice_to_len. apply Z.leb_le in L2. lia. }
  destruct (pad_loop_result topic n found) as [r [-> [Hl _]]].
  intros H; inversion H; subst. lia.
Qed.

(** X4: Every element of what [generate_ideas] returns is a non-empty
    string, padding included. *)
Theorem generate_ideas_nonempty (result : list str) :
  fst (generate_ideas topic n style tone temperature w) = Ok result ->
  forallb truthy result = true.
Proof.
  unfold generate_ideas, bindM, lift, ret.
  destruct (call_openai_chat _ temperature w) as [[raw|e] w1]; [| discriminate].
  destruct (extract_json_array raw) as [found|e] eqn:E1; [| discriminate].
  pose proof (extract_json_array_truthy _ _ E1) as N1.
  destruct (n <=? len found)%Z.
  { intros H; inversion H. apply forallb_slice_to, N1. }
  destruct (len found <? n)%Z.
  - destruct (call_openai_chat _ temperature w1) as [[raw2|e] w2]; [| discriminate].
    destruct (extract_json_array raw2) as [found2|e] eqn:E2; [| discriminate].
    pose proof (extract_json_array_truthy _ _ E2) as N2.
    destruct (n <=? len found2)%Z.
    { intros H; inversion H. apply forallb_slice_to, N2. }
    destruct (pad_loop_result topic n found) as [r [-> [_ [_ Hr]]]].
    intros H; inversion H; subst. apply Hr, N1.
  - destruct (pad_loop_result topic n found) as [r [-> [_ [_ Hr]]]].
    intros H; inversion H; subst. apply Hr, N1.
Qed.

(** X5: When the first answer already holds [n] ideas or more, the result
    is [ideas[:n]], the first [n] of them, and one request is sent. *)
Theorem generate_ideas_first_answer_enough (raw : str) (found : list str) :
  key_set (api_key w) = true ->
  service w (calls w) req1 = Ok raw ->
  extract_json_array raw = Ok found ->
  (n <= len found)%Z ->
  generate_ideas topic n style tone temperature w
  = (Ok (slice_to found n), log_call req1 w).
Proof.
  intros Hk Ha Hp Hn. unfold generate_ideas, bindM, lift, ret.
  rewrite call_openai_chat_with_key by exact Hk. fold req1. rewrite Ha, Hp.
  replace (n <=? len found)%Z with true by (symmetry; apply Z.leb_le; lia).
  reflexivity.
Qed.

(** X6: When the first answer is short and the second holds [n] ideas or
    more, the result is the first [n] ideas of the second answer; the
    first answer's ideas are dropped and two requests are sent. *)
Theorem generate_ideas_second_answer_enough
  (raw1 raw2 : str) (found1 found2 : list str) :
  key_set (api_key w) = true ->
  service w (calls w) req1 = Ok raw1 ->
  extract_json_array raw1 = Ok found1 ->
  (len found1 < n)%Z ->
  service w (calls w ++ [req1]) req2 = Ok raw2 ->
  extract_json_array raw2 = Ok found2 ->
  (n <= len found2)%Z ->
  generate_ideas topic n style tone temperature w
  = (Ok (firstn (Z.to_nat n) found2), log_call req2 (log_call req1 w)).
Proof.
  intros Hk Ha1 Hp1 Hs Ha2 Hp2 Hn. unfold generate_ideas, bindM, lift, ret.
  rewrite call_openai_chat_with_key by exact Hk. fold req1. rewrite Ha1, Hp1.
  replace (n <=? len found1)%Z with false by (symmetry; apply Z.leb_gt; lia).
  replace (len found1 <? n)%Z with true by (symmetry; apply Z.ltb_lt; lia).
  rewrite call_openai_chat_with_key by exact Hk.
  cbn [service calls log_call]. fold req1 req2. rewrite Ha2, Hp2.
  replace (n <=? len found2)%Z with true by (symmetry; apply Z.leb_le; lia).
  unfold slice_to.
  replace (0 <=? n)%Z with true
    by (symmetry; apply Z.leb_le; unfold len in Hs; lia).
  reflexivity.
Qed.

(** X7: A failure of the first request is raised as it is: nothing is
    retried and exactly one request has been sent. *)
Theorem generate_ideas_first_call_fails (e : exn) :
  key_set (api_key w) = true ->
  service w (calls w) req1 = Raise e ->
  generate_ideas topic n style tone temperature w = (Raise e, log_call req1 w).
Proof.
  intros Hk Ha. unfold generate_ideas, bindM.
  rewrite call_openai_chat_with_key by exact Hk. fold req1. rewrite Ha.
  reflexivity.
Qed.

(** X8: A failure of the reinforced request is raised as it is: the ideas
    of the first answer are not returned and no padding is made. *)
Theorem generate_ideas_second_call_fails
  (raw1 : str) (found1 : list str) (e : exn) :
  key_set (api_key w) = true ->
  service w (calls w) req1 = Ok raw1 ->
  extract_json_array raw1 = Ok found1 ->
  (len found1 < n)%Z ->
  service w (calls w ++ [req1]) req2 = Raise e ->
  generate_ideas topic n style tone temperature w
  = (Raise e, log_call req2 (log_call req1 w)).
Proof.
  intros Hk Ha1 Hp1 Hs Ha2. unfold generate_ideas, bindM, lift, ret.
  rewrite call_openai_chat_with_key by exact Hk. fold req1. rewrite Ha1, Hp1.
  replace (n <=? len found1)%Z with false by (symmetry; apply Z.leb_gt; lia).
  replace (len found1 <? n)%Z with true by (symmetry; apply Z.ltb_lt; lia).
  rewrite call_openai_chat_with_key by exact Hk.
  cbn [service calls log_call]. fold req1 req2. rewrite Ha2. reflexivity.
Qed.

(** X9: With a key set and a service that answers every request with a
    text (a [str], as [extract_json_array] expects), the call returns a
    list and raises nothing, however little the answers hold. *)
Theorem generate_ideas_returns :
  key_set (api_key w) = true ->
  (forall seen req, exists raw, service w seen req = Ok raw) ->
  exists result,
    fst (generate_ideas topic n style tone temperature w) = Ok result.
Proof.
  intros Hk Hs. unfold generate_ideas, bindM, lift, ret.
  rewrite call_openai_chat_with_key by exact Hk.
  destruct (Hs (calls w) req1) as [raw Ha]. fold req1. rewrite Ha.
  destruct (extract_json_array_ideas_found raw) as [found ->].
  destruct (n <=? len found)%Z; [eexists; reflexivity |].
  destruct (pad_loop_result topic n found) as [r [Hr _]].
  destruct (len found <? n)%Z.
  - rewrite call_openai_chat_with_key by exact Hk.
    cbn [service calls log_call]. fold req1 req2.
    destruct (Hs (calls w ++ [req1]) req2) as [raw2 Ha2]. rewrite Ha2.
    destruct (extract_json_array_ideas_found raw2) as [found2 ->].
    destruct (n <=? len found2)%Z; [eexists; reflexivity |].
    rewrite Hr. eexists; reflexivity.
  - rewrite Hr. eexists; reflexivity.
Qed.

End MoreGeneratorFacts.

(** * Further facts about the page script *)

Section MoreScriptFacts.
Context {rt : Runtime}.

Lemma init_session_ok w :
  init_session w = (Ok tt, set_session (initialised (session_state w)) w).
Proof.
  unfold init_session, initialised, bindM, write_ideas, write_topic, set_session.
  destruct w as [k s c [i t]]. cbn. destruct i; reflexivity.
Qed.

(** The [if gen_btn:] block raises nothing: a failure of the call is
    caught and shown. *)
Lemma on_generate_ok ui w :
  exists ns, on_generate ui w = (Ok ns, snd (on_generate ui w)).
Proof.
  unfold on_generate, try_exceptM, bindM, ret, write_ideas, write_topic.
  destruct (truthy (topic_input ui)); cbn [negb]; [| eexists; reflexivity].
  destruct (generate_ideas _ _ _ _ _ w) as [[new|e] w']; eexists; reflexivity.
Qed.

(** Showing the list touches neither the key nor the request log. *)
Lemma render_calls ui w :
  calls (snd (render ui w)) = calls w
  /\ api_key (snd (render ui w)) = api_key w.
Proof.
  unfold render, bindM, read_ideas, lift, ret, write_ideas, write_topic.
  destruct (ideas (session_state w)) as [l|]; [| auto].
  destruct (truthy l); [| auto].
  destruct (encode_utf8 (csv_export l)); [| auto].
  destruct (clear_btn ui); auto.
Qed.

(** A run ends in the world its button blocks leave, up to what the
    clear button does to the session state. *)
Lemma main_handled env_key ui w :
  calls (snd (main env_key ui w)) = calls (handled env_key ui w)
  /\ api_key (snd (main env_key ui w)) = api_key (handled env_key ui w)
  /\ (clear_btn ui = false -> snd (main env_key ui w) = handled env_key ui w).
Proof.
  unfold main, handled, bindM.
  destruct (set_api_key_ok env_key (key_input ui) w) as [k [Ek _]].
  set (w1 := snd (set_api_key_from_env_or_input env_key (key_input ui) w)) in *.
  rewrite Ek, init_session_ok. cbn [snd].
  set (w2 := set_session (initialised (session_state w1)) w1).
  assert (H1 : exists ns,
             (if gen_btn ui then on_generate ui else ret []) w2
             = (Ok ns, if gen_btn ui then snd (on_generate ui w2) else w2)).
  { destruct (gen_btn ui); [apply on_generate_ok | eexists; reflexivity]. }
  destruct H1 as [n1 ->].
  set (w3 := if gen_btn ui then snd (on_generate ui w2) else w2).
  unfold ret. destruct (gen_more_btn ui).
  - destruct (on_generate_more ui w3) as [[n2|e] w4]; cbn [snd].
    + destruct (render_calls ui w4) as [Hc Hk].
      pose proof (render_frame ui w4) as Hf.
      destruct (render ui w4) as [[r|e] w5]; cbn [snd] in *;
        repeat split; auto.
    + repeat split; auto.
  - destruct (render_calls ui w3) as [Hc Hk].
    pose proof (render_frame ui w3) as Hf.
    destruct (render ui w3) as [[r|e] w5]; cbn [snd] in *;
      repeat split; auto.
Qed.

Lemma set_api_key_calls env_key input_key w :
  calls (snd (set_api_key_from_env_or_input env_key input_key w)) = calls w.
Proof.
  unfold set_api_key_from_env_or_input.
  destruct (truthy input_key); [reflexivity |].
  destruct (key_set env_key); [destruct env_key |]; reflexivity.
Qed.

Lemma set_api_key_session env_key input_key w :
  session_state (snd (set_api_key_from_env_or_input env_key input_key w))
  = session_state w.
Proof. destruct (set_api_key_ok env_key input_key w) as [k [_ H]]. exact H. Qed.

Lemma on_generate_empty ui w :
  truthy (topic_input ui) = false -> snd (on_generate ui w) = w.
Proof. intros H. unfold on_generate. rewrite H. reflexivity. Qed.

Lemma on_generate_more_no_topic ui w :
  truthy (stored_topic (session_state w)) = false ->
  snd (on_generate_more ui w) = w.
Proof.
  unfold on_generate_more, bindM, read_topic, stored_topic.
  destruct (topic (session_state w)) as [t|]; [| reflexivity].
  intros H. rewrite H. reflexivity.
Qed.

(** The worlds the two button blocks can leave: the one
    [generate_ideas] leaves, with or without a new session state, or
    the one they started in. *)
Lemma on_generate_world ui w :
  snd (on_generate ui w) = w
  \/ exists s, snd (on_generate ui w)
               = set_session s (snd (generate_ideas (topic_input ui)
                                       (num_ideas ui) (style ui) (tone ui)
                                       (temp ui) w)).
Proof.
  unfold on_generate, try_exceptM, bindM, ret, write_ideas, write_topic.
  destruct (truthy (topic_input ui)); cbn [negb]; [| left; reflexivity].
  right.
  destruct (generate_ideas _ _ _ _ _ w) as [[new|e] w'] eqn:G; cbn [snd].
  - eexists. reflexivity.
  - exists (session_state w'). destruct w'. reflexivity.
Qed.

Lemma on_generate_more_world ui w :
  snd (on_generate_more ui w) = w
  \/ exists s, snd (on_generate_more ui w)
               = set_session s (snd (generate_ideas
                                       (stored_topic (session_state w))
                                       (num_ideas ui) (style ui) (tone ui)
                                       (temp ui) w)).
Proof.
  unfold on_generate_more, try_exceptM, bindM, ret, read_topic, read_ideas,
    write_ideas, stored_topic.
  destruct (topic (session_state w)) as [t|] eqn:Et; [| left; reflexivity].
  destruct (truthy t); cbn [negb]; [| left; reflexivity].
  right. rewrite Et.
  destruct (generate_ideas t _ _ _ _ w) as [[more|e] w'] eqn:G; cbn [snd].
  - destruct (ideas (session_state w')) as [l|]; cbn.
    + eexists. reflexivity.
    + exists (session_state w'). destruct w'. reflexivity.
  - exists (session_state w'). destruct w'. reflexivity.
Qed.

Lemma generate_ideas_two_more topic n style tone temperature w :
  (length (calls w)
   <= length (calls (snd (generate_ideas topic n style tone temperature w)))
   <= length (calls w) + 2)%nat
  /\ api_key (snd (generate_ideas topic n style tone temperature w))
     = api_key w.
Proof.
  destruct (generate_ideas_world topic n style tone temperature w)
    as [-> | [-> | ->]]; cbn [calls api_key log_call]; rewrite ?length_app;
    simpl; split; try reflexivity; lia.
Qed.

(** X10: A run in which "Generate Ideas" is not pressed or the topic field
    is empty, and "Generate More" is not pressed or no topic is stored,
    sends no request; unless the clear button is pressed it leaves the
    session state as it was once initialised. *)
Theorem main_sends_nothing (env_key : option str) (ui : Widgets) (w : World) :
  gen_btn ui && truthy (topic_input ui) = false ->
  gen_more_btn ui && truthy (stored_topic (initialised (session_state w)))
  = false ->
  calls (snd (main env_key ui w)) = calls w
  /\ (clear_btn ui = false ->
      session_state (snd (main env_key ui w)) = initialised (session_state w)).
Proof.
  intros Hg Hm.
  assert (H : handled env_key ui w
              = set_session (initialised (session_state w))
                  (snd (set_api_key_from_env_or_input env_key (key_input ui) w))).
  { unfold handled. rewrite init_session_ok. cbn [snd].
    rewrite set_api_key_session.
    set (w2 := set_session _ _).
    assert (H3 : (if gen_btn ui then snd (on_generate ui w2) else w2) = w2).
    { destruct (gen_btn ui); [| reflexivity].
      apply on_generate_empty. exact Hg. }
    rewrite H3. destruct (gen_more_btn ui); [| reflexivity].
    apply on_generate_more_no_topic. exact Hm. }
  destruct (main_handled env_key ui w) as [Hc [_ Hs]]. split.
  - rewrite Hc, H. cbn [calls set_session]. apply set_api_key_calls.
  - intros Hcl. rewrite (Hs Hcl), H. reflexivity.
Qed.

(** X11: A run in which only "Generate Ideas" is pressed, with a topic
    typed, invokes [generate_ideas] with that topic and the widget
    values of the run; on success the stored list is replaced by the
    result and the topic is stored, on failure the session state stays
    as it was once initialised. *)
Theorem generate_replaces (env_key : option str) (ui : Widgets) (w : World) :
  gen_btn ui = true ->
  gen_more_btn ui = false ->
  clear_btn ui = false ->
  truthy (topic_input ui) = true ->
  let w0 :=
    snd (init_session
           (snd (set_api_key_from_env_or_input env_key (key_input ui) w))) in
  match generate_ideas (topic_input ui) (num_ideas ui) (style ui) (tone ui)
          (temp ui) w0 with
  | (Ok new, w2) =>
      snd (main env_key ui w)
      = set_session {| ideas := Some new; topic := Some (topic_input ui) |} w2
  | (Raise e, w2) =>
      snd (main env_key ui w) = w2
      /\ session_state w2 = initialised (session_state w)
  end.
Proof.
  intros Hg Hm Hc Ht. cbv zeta.
  destruct (main_handled env_key ui w) as [_ [_ Hs]]. rewrite (Hs Hc).
  unfold handled. rewrite Hg, Hm.
  set (w0 := snd (init_session _)).
  pose proof (generate_ideas_session (topic_input ui) (num_ideas ui) (style ui)
                (tone ui) (temp ui) w0) as Hf.
  assert (H0 : session_state w0 = initialised (session_state w)).
  { unfold w0. rewrite init_session_ok. cbn [snd session_state set_session].
    rewrite set_api_key_session. reflexivity. }
  unfold on_generate, try_exceptM, bindM, ret, write_ideas, write_topic.
  rewrite Ht. cbn [negb].
  destruct (generate_ideas _ _ _ _ _ w0) as [[new|e] w2]; cbn [snd] in *.
  - reflexivity.
  - split; [reflexivity | congruence].
Qed.

(** X12: With no idea stored, a failed "Generate Ideas" does not make the run
    fail: the exception is shown on the page and no list is displayed. *)
Theorem generate_failure_is_shown
  (env_key : option str) (ui : Widgets) (w : World) (e : exn) :
  gen_btn ui = true ->
  gen_more_btn ui = false ->
  truthy (topic_input ui) = true ->
  ideas (initialised (session_state w)) = Some [] ->
  fst (generate_ideas (topic_input ui) (num_ideas ui) (style ui) (tone ui)
         (temp ui)
         (snd (init_session
                 (snd (set_api_key_from_env_or_input env_key (key_input ui) w)))))
  = Raise e ->
  exists k,
    fst (main env_key ui w)
    = Ok {| notices := [k; ShownException e]; display := None; rerun := false |}.
Proof.
  intros Hg Hm Ht Hi He. unfold main, bindM.
  destruct (set_api_key_ok env_key (key_input ui) w) as [k [Ek Hk]].
  set (w1 := snd (set_api_key_from_env_or_input env_key (key_input ui) w)) in *.
  exists k. rewrite Ek. rewrite init_session_ok in *. cbn [snd] in *.
  rewrite Hk in *. set (w0 := set_session _ w1) in *.
  rewrite Hg, Hm.
  pose proof (generate_ideas_session (topic_input ui) (num_ideas ui) (style ui)
                (tone ui) (temp ui) w0) as Hf.
  unfold on_generate, try_exceptM, bindM, ret. rewrite Ht. cbn [negb].
  destruct (generate_ideas _ _ _ _ _ w0) as [[new|e'] w2]; cbn [fst snd] in *;
    [discriminate |].
  inversion He; subst e'.
  unfold render, bindM, read_ideas, ret. rewrite Hf. unfold w0.
  cbn [session_state set_session]. rewrite Hi. reflexivity.
Qed.

(** X13: Each run in which at most one of the two generate buttons is
    pressed sends at most two requests. *)
Theorem main_at_most_two_calls (env_key : option str) (ui : Widgets) (w : World) :
  gen_btn ui && gen_more_btn ui = false ->
  (length (calls (snd (main env_key ui w))) <= length (calls w) + 2)%nat.
Proof.
  intros H. destruct (main_handled env_key ui w) as [-> _].
  unfold handled. rewrite init_session_ok. cbn [snd].
  set (w2 := set_session _ _).
  assert (H2 : calls w2 = calls w)
    by (unfold w2; cbn [calls set_session]; apply set_api_key_calls).
  destruct (gen_btn ui); cbn [andb] in H.
  - rewrite H. destruct (on_generate_world ui w2) as [-> | [s ->]].
    + rewrite H2. lia.
    + cbn [calls set_session].
      destruct (generate_ideas_two_more (topic_input ui) (num_ideas ui)
                  (style ui) (tone ui) (temp ui) w2) as [Hb _].
      rewrite H2 in Hb. lia.
  - destruct (gen_more_btn ui); [| rewrite H2; lia].
    destruct (on_generate_more_world ui w2) as [-> | [s ->]].
    + rewrite H2. lia.
    + cbn [calls set_session].
      destruct (generate_ideas_two_more (stored_topic (session_state w2))
                  (num_ideas ui) (style ui) (tone ui) (temp ui) w2) as [Hb _].
      rewrite H2 in Hb. lia.
Qed.

Lemma handled_api_key env_key ui w :
  api_key (handled env_key ui w)
  = api_key (snd (set_api_key_from_env_or_input env_key (key_input ui) w)).
Proof.
  unfold handled. rewrite init_session_ok. cbn [snd].
  set (w1 := snd (set_api_key_from_env_or_input env_key (key_input ui) w)).
  set (w2 := set_session _ w1).
  assert (H3 : api_key (if gen_btn ui then snd (on_generate ui w2) else w2)
               = api_key w1).
  { destruct (gen_btn ui); [| reflexivity].
    destruct (on_generate_world ui w2) as [-> | [s ->]]; [reflexivity |].
    cbn [api_key set_session].
    destruct (generate_ideas_two_more (topic_input ui) (num_ideas ui)
                (style ui) (tone ui) (temp ui) w2) as [_ ->]. reflexivity. }
  set (w3 := if gen_btn ui then snd (on_generate ui w2) else w2) in *.
  destruct (gen_more_btn ui); [| exact H3].
  destruct (on_generate_more_world ui w3) as [-> | [s ->]]; [exact H3 |].
  cbn [api_key set_session].
  destruct (generate_ideas_two_more (stored_topic (session_state w3))
              (num_ideas ui) (style ui) (tone ui) (temp ui) w3) as [_ ->].
  exact H3.
Qed.

(** X14: A key typed in the sidebar in one run is still the key in use in a
    later run in which the field is empty and the environment gives no
    key: nothing in a run unsets [openai.api_key]. *)
Theorem sidebar_key_stays
  (env1 env2 : option str) (ui1 ui2 : Widgets) (w : World) :
  truthy (key_input ui1) = true ->
  truthy (key_input ui2) = false ->
  key_set env2 = false ->
  api_key (snd (main env2 ui2 (snd (main env1 ui1 w))))
  = Some (key_input ui1).
Proof.
  intros H1 H2 He.
  destruct (main_handled env2 ui2 (snd (main env1 ui1 w))) as [_ [-> _]].
  rewrite handled_api_key. unfold set_api_key_from_env_or_input at 1.
  rewrite H2, He. cbn [snd].
  destruct (main_handled env1 ui1 w) as [_ [-> _]].
  rewrite handled_api_key. unfold set_api_key_from_env_or_input.
  rewrite H1. reflexivity.
Qed.

(** X15: Pressing the clear button while ideas are shown empties the stored
    list and the stored topic and asks for a rerun; the page of that run
    still carries the list and its downloads. *)
Theorem clear_resets_session
  (env_key : option str) (ui : Widgets) (w : World) (l : list str) (b : bytes) :
  gen_btn ui = false ->
  gen_more_btn ui = false ->
  clear_btn ui = true ->
  ideas (session_state w) = Some l ->
  truthy l = true ->
  encode_utf8 (csv_export l) = Ok b ->
  exists k,
    main env_key ui w
    = (Ok {| notices := [k];
             display := Some {| numbered := numbered_lines l;
                                joined := joined_text l;
                                csv_bytes := b |};
             rerun := true |},
       set_session {| ideas := Some []; topic := Some [] |}
         (snd (set_api_key_from_env_or_input env_key (key_input ui) w))).
Proof.
  intros Hg Hm Hc Hi Hl Hb. unfold main, bindM.
  destruct (set_api_key_ok env_key (key_input ui) w) as [k [Ek Hk]].
  set (w1 := snd (set_api_key_from_env_or_input env_key (key_input ui) w)) in *.
  exists k. rewrite Ek.
  rewrite (init_session_present w1 l) by (rewrite Hk; exact Hi).
  rewrite Hg, Hm. unfold ret at 1 2.
  unfold render, bindM, read_ideas, lift, ret, write_ideas, write_topic.
  rewrite Hk, Hi, Hl, Hb, Hc. cbn. reflexivity.
Qed.

End MoreScriptFacts.

(** * Further facts about the exports *)

Lemma truthy_app_cons {A} (a : list A) x b : truthy (a ++ x :: b) = true.
Proof. destruct a; reflexivity. Qed.

Lemma csv_rows_length ideas start :
  (length ideas
   <= length (concat (map (fun p => csv_row (fst p) (snd p))
                        (enumerate ideas start))))%nat.
Proof.
  revert start. induction ideas as [|it r IH]; intros start; simpl; [lia |].
  rewrite length_app. specialize (IH (start + 1)%Z).
  assert (1 <= length (csv_row start it))%nat; [| lia].
  unfold csv_row. rewrite !length_app. simpl. lia.
Qed.

Lemma csv_read_all_rows ideas start fuel :
  (length ideas < fuel)%nat ->
  csv_read_all fuel
    (concat (map (fun p => csv_row (fst p) (snd p)) (enumerate ideas start)))
  = Some (map (fun p => [str_of_int (fst p); snd p]) (enumerate ideas start)).
Proof.
  revert start fuel. induction ideas as [|it r IH]; intros start fuel Hf.
  - destruct fuel; [lia | reflexivity].
  - destruct fuel as [|fuel]; [simpl in Hf; lia |].
    cbn [enumerate map concat csv_read_all fst snd].
    replace (truthy (csv_row start it ++ _)) with true
      by (symmetry; unfold csv_row; rewrite <- !app_assoc; apply truthy_app_cons).
    rewrite csv_row_read, IH by (simpl in Hf; lia). reflexivity.
Qed.

(** X16: Reading the whole CSV export record by record gives the header and
    then, for every idea in order, its 1-based index and the idea
    itself, whatever characters the ideas hold. *)
Theorem csv_export_round_trip (ideas : list str) :
  csv_decode (csv_export ideas)
  = Some ([py "index"; py "idea"]
          :: map (fun p => [str_of_int (fst p); snd p]) (enumerate ideas 1)).
Proof.
  unfold csv_decode, csv_export. cbn [csv_read_all].
  change (truthy (py "index,idea" ++ [LF] ++ _)) with true. cbn iota.
  change (csv_decode_row (py "index,idea" ++ [LF] ++ ?r))
    with (Some ([py "index"; py "idea"], r)).
  cbn iota. rewrite csv_read_all_rows; [reflexivity |].
  rewrite !length_app. pose proof (csv_rows_length ideas 1). simpl. lia.
Qed.

Lemma encodable_app a b : encodable (a ++ b) = encodable a && encodable b.
Proof. apply forallb_app. Qed.

Lemma encodable_digits d : encodable (digits_of_uint d) = true.
Proof. induction d; simpl; auto. Qed.

Lemma encodable_int n : encodable (str_of_int n) = true.
Proof.
  unfold str_of_int. destruct (Z.to_int n); [| simpl]; apply encodable_digits.
Qed.

Lemma encodable_double_quotes s : encodable (double_quotes s) = encodable s.
Proof.
  induction s as [|c r IH]; [reflexivity |].
  cbn [double_quotes flat_map]. fold (double_quotes r).
  rewrite encodable_app, IH.
  destruct (char_eqb c DQUOTE) eqn:E.
  - apply N.eqb_eq in E. subst c. reflexivity.
  - unfold encodable. cbn [forallb]. rewrite andb_true_r. reflexivity.
Qed.

Lemma encodable_csv_row idx it : encodable (csv_row idx it) = encodable it.
Proof.
  unfold csv_row. rewrite replace_quote, !encodable_app, encodable_int,
    encodable_double_quotes.
  cbn. rewrite !andb_true_r. reflexivity.
Qed.

Lemma encodable_csv_export ideas :
  encodable (csv_export ideas) = forallb encodable ideas.
Proof.
  unfold csv_export. rewrite !encodable_app.
  change (encodable (py "index,idea")) with true.
  change (encodable [LF]) with true. cbn [andb].
  generalize 1%Z. induction ideas as [|it r IH]; intros start; [reflexivity |].
  cbn [enumerate map concat fst snd forallb].
  rewrite encodable_app, encodable_csv_row, IH. reflexivity.
Qed.

Lemma encode_char_surrogate c :
  match encode_char c with
  | Ok _ => is_surrogate c = false
  | Raise e => e = UnicodeEncodeError /\ is_surrogate c = true
  end.
Proof.
  unfold encode_char, is_surrogate.
  destruct (c <? 128) eqn:E1.
  { apply N.ltb_lt in E1. apply andb_false_iff. left. apply N.leb_gt. lia. }
  destruct (c <? 2048) eqn:E2.
  { apply N.ltb_lt in E2. apply andb_false_iff. left. apply N.leb_gt. lia. }
  destruct ((55296 <=? c) && (c <=? 57343)); [auto |].
  destruct (c <? 65536); reflexivity.
Qed.

Lemma encode_utf8_encodable s :
  match encode_utf8 s with
  | Ok _ => encodable s = true
  | Raise e => e = UnicodeEncodeError /\ encodable s = false
  end.
Proof.
  induction s as [|c r IH]; [reflexivity |].
  cbn [encode_utf8 encodable forallb]. fold (encodable r).
  pose proof (encode_char_surrogate c) as Hc.
  destruct (encode_char c) as [b|e]; cbn [bind].
  - rewrite Hc. cbn [negb andb].
    destruct (encode_utf8 r) as [bs|e]; cbn [bind]; exact IH.
  - destruct Hc as [-> Hs]. rewrite Hs. auto.
Qed.

(** X17: The CSV download can be encoded exactly when no idea holds a
    surrogate code point; otherwise encoding raises
    [UnicodeEncodeError]. *)
Theorem csv_export_encodes (ideas : list str) :
  match encode_utf8 (csv_export ideas) with
  | Ok _ => forallb encodable ideas = true
  | Raise e => e = UnicodeEncodeError /\ forallb encodable ideas = false
  end.
Proof.
  rewrite <- encodable_csv_export. apply encode_utf8_encodable.
Qed.

Lemma one_line_app a b : one_line (a ++ b) = one_line a && one_line b.
Proof. apply forallb_app. Qed.

Lemma one_line_digits d : one_line (digits_of_uint d) = true.
Proof. induction d; simpl; auto. Qed.

Lemma one_line_int n : one_line (str_of_int n) = true.
Proof.
  unfold str_of_int. destruct (Z.to_int n); [| simpl]; apply one_line_digits.
Qed.

(** Characters that end no line are collected into the current line. *)
Lemma splitlines_aux_app p rest cur :
  one_line p = true ->
  splitlines_aux (p ++ rest) cur = splitlines_aux rest (rev p ++ cur).
Proof.
  revert cur. induction p as [|c r IH]; intros cur H; [reflexivity |].
  cbn [one_line forallb] in H. apply andb_true_iff in H. destruct H as [Hc Hr].
  cbn [app splitlines_aux]. apply negb_true_iff in Hc. rewrite Hc.
  rewrite IH by exact Hr. cbn [rev]. rewrite <- app_assoc. reflexivity.
Qed.

Lemma splitlines_join parts :
  forallb one_line parts = true ->
  forallb truthy parts = true ->
  splitlines (join [LF] parts) = parts.
Proof.
  unfold splitlines. induction parts as [|p r IH]; [reflexivity |].
  intros H1 H2. cbn [forallb] in H1, H2.
  apply andb_true_iff in H1. destruct H1 as [Hp Hr].
  apply andb_true_iff in H2. destruct H2 as [Tp Tr].
  destruct r as [|q r'].
  - cbn [join]. rewrite <- (app_nil_r p) at 1.
    rewrite splitlines_aux_app by exact Hp. cbn [splitlines_aux].
    rewrite app_nil_r.
    destruct (rev p) eqn:E; [| rewrite <- E, rev_involutive; reflexivity].
    destruct p; [discriminate |]. simpl in E.
    destruct (rev p); discriminate.
  - change (join [LF] (p :: q :: r')) with (p ++ LF :: join [LF] (q :: r')).
    rewrite splitlines_aux_app by exact Hp.
    cbn [splitlines_aux]. change (islinebreak LF) with true. cbn iota.
    rewrite app_nil_r, rev_involutive.
    assert (Hj : exists d t, join [LF] (q :: r') = d :: t).
    { destruct q as [|d q']; [discriminate |].
      destruct r'; cbn [join]; eexists; eexists; reflexivity. }
    destruct Hj as [d [t Hj]]. rewrite Hj.
    change (char_eqb LF CR) with false. cbn [andb].
    rewrite <- Hj, IH by assumption. reflexivity.
Qed.

(** X18: When no idea holds a line boundary, the plain-text download has one
    line per idea, in order: its 1-based index, a dot, a space and the
    idea. *)
Theorem joined_text_lines (ideas : list str) :
  forallb one_line ideas = true ->
  splitlines (joined_text ideas) = numbered_entries ideas.
Proof.
  intros H. unfold joined_text. fold (numbered_entries ideas).
  apply splitlines_join; unfold numbered_entries.
  - revert H. generalize 0%Z.
    induction ideas as [|it r IH]; intros start H; [reflexivity |].
    cbn [forallb] in H. apply andb_true_iff in H. destruct H as [Hi Hr].
    cbn [enumerate map forallb fst snd].
    rewrite !one_line_app, one_line_int, Hi, (IH _ Hr). reflexivity.
  - generalize 0%Z. clear H.
    induction ideas as [|it r IH]; intros start; [reflexivity |].
    cbn [enumerate map forallb fst snd]. rewrite IH, andb_true_r.
    change (py ". " ++ it) with (46 :: 32 :: it).
    apply truthy_app_cons.
Qed.

(** * The plain-text form read back by the parser *)

Lemma lstrip_by_head p s c r : lstrip_by p s = c :: r -> p c = false.
Proof.
  induction s as [|x s IH]; simpl; [discriminate |].
  destruct (p x) eqn:Px; [exact IH |]. intros H; inversion H; subst; exact Px.
Qed.

Lemma lstrip_by_keeps p c r : p c = false -> lstrip_by p (c :: r) = c :: r.
Proof. intros H. simpl. rewrite H. reflexivity. Qed.

Lemma lstrip_by_app_all p a b :
  forallb p a = true -> lstrip_by p (a ++ b) = lstrip_by p b.
Proof.
  induction a as [|c r IH]; [reflexivity |].
  intros H. cbn [forallb] in H. apply andb_true_iff in H. destruct H as [Hc Hr].
  cbn [app lstrip_by]. rewrite Hc. apply IH, Hr.
Qed.

Lemma last_rev_head {A} (s : list A) c d :
  rev s = c :: d -> forall x, last s x = c.
Proof.
  intros H x. rewrite <- (rev_involutive s), H. cbn [rev]. apply last_last.
Qed.

(** A text with no whitespace at either end is left as it is. *)
Lemma strip_trimmed s : trimmed s = true -> strip s = s.
Proof.
  destruct s as [|c r]; [reflexivity |].
  unfold trimmed. intros H. apply andb_true_iff in H. destruct H as [Hh Hl].
  apply negb_true_iff in Hh. apply negb_true_iff in Hl.
  unfold strip. rewrite lstrip_by_keeps by exact Hh.
  unfold rstrip_by. destruct (rev (c :: r)) as [|x t] eqn:E.
  - apply (f_equal (@length _)) in E. rewrite length_rev in E. discriminate.
  - rewrite (last_rev_head _ _ _ E) in Hl.
    rewrite lstrip_by_keeps by exact Hl.
    rewrite <- E. apply rev_involutive.
Qed.

(** What [strip] returns has no whitespace at either end. *)
Lemma strip_is_trimmed s : trimmed (strip s) = true.
Proof.
  unfold strip, rstrip_by.
  destruct (lstrip_by isspace (rev (lstrip_by isspace s))) as [|x t] eqn:E;
    [reflexivity |].
  pose proof (lstrip_by_head _ _ _ _ E) as Hx.
  destruct (lstrip_by_split isspace (rev (lstrip_by isspace s))) as [pre [Es _]].
  rewrite E in Es.
  destruct (rev (x :: t)) as [|c r] eqn:Er.
  { apply (f_equal (@length _)) in Er. rewrite length_rev in Er. discriminate. }
  unfold trimmed. apply andb_true_iff. split; apply negb_true_iff.
  - assert (Hs : lstrip_by isspace s = (c :: r) ++ rev pre).
    { rewrite <- Er, <- rev_app_distr, <- Es, rev_involutive. reflexivity. }
    apply (lstrip_by_head isspace s c (r ++ rev pre)). exact Hs.
  - rewrite <- Er. cbn [rev]. rewrite last_last. exact Hx.
Qed.

Section ReadBack.
Context {rt : Runtime}.

(** The interpreter's [str.isdigit] accepts the ASCII digits. *)
Hypothesis isdigit_ascii :
  forall c, is_ascii_digit c = true -> isdigit c = true.

Lemma digits_ascii d : forallb is_ascii_digit (digits_of_uint d) = true.
Proof. induction d; simpl; auto. Qed.

Lemma ascii_digit_facts c :
  is_ascii_digit c = true ->
  numbering_char c = true /\ isspace c = false
  /\ contains [HYPHEN; BULLET; SPACE] c = false
  /\ islinebreak c = false /\ char_eqb LBRACKET c = false.
Proof.
  intros H. split; [unfold numbering_char; rewrite (isdigit_ascii c H); reflexivity |].
  unfold is_ascii_digit in H. apply andb_true_iff in H. destruct H as [H1 H2].
  apply N.leb_le in H1. apply N.leb_le in H2.
  unfold isspace, contains, islinebreak, char_eqb, existsb, HYPHEN, BULLET,
    SPACE, LBRACKET.
  repeat match goal with
         | |- context [?a <=? ?b] =>
             let E := fresh in destruct (N.leb_spec a b) as [E|E]; try lia
         | |- context [?a =? ?b] =>
             let E := fresh in destruct (N.eqb_spec a b) as [E|E]; try lia
         end; auto.
Qed.

(** The decimal form of a positive index: at least one character, all of
    them ASCII digits. *)
Lemma str_of_int_positive k :
  (0 < k)%Z ->
  exists d ds,
    str_of_int k = d :: ds /\ forallb is_ascii_digit (d :: ds) = true.
Proof.
  intros H. destruct k as [|p|p]; try lia.
  unfold str_of_int. cbn [Z.to_int].
  pose proof (digits_ascii (Pos.to_uint p)) as Hd.
  destruct (digits_of_uint (Pos.to_uint p)) as [|d ds] eqn:E.
  - exfalso. apply (DecimalPos.Unsigned.to_uint_nonnil p).
    destruct (Pos.to_uint p); try discriminate. reflexivity.
  - exists d, ds. auto.
Qed.

Lemma last_app_cons {A} (a : list A) x b d : last (a ++ x :: b) d = last (x :: b) d.
Proof.
  induction a as [|y a IH]; [reflexivity |].
  destruct a as [|z a']; [reflexivity | exact IH].
Qed.

Lemma last_default {A} (x : A) b d d' : last (x :: b) d = last (x :: b) d'.
Proof.
  revert x. induction b as [|y b IH]; intros x; [reflexivity |].
  cbn [last]. apply IH.
Qed.

Lemma contains_app a b c : contains (a ++ b) c = contains a c || contains b c.
Proof. apply existsb_app. Qed.

Lemma forallb_impl {A} (p q : A -> bool) l :
  (forall x, p x = true -> q x = true) ->
  forallb p l = true -> forallb q l = true.
Proof.
  intros H. induction l as [|x l IH]; [reflexivity |].
  cbn [forallb]. intros E. apply andb_true_iff in E. destruct E as [Ex El].
  rewrite (H x Ex), (IH El). reflexivity.
Qed.

Lemma digits_absent ds c :
  forallb is_ascii_digit ds = true ->
  is_ascii_digit c = false -> contains ds c = false.
Proof.
  intros H Hc. induction ds as [|d ds IH]; [reflexivity |].
  cbn [forallb] in H. apply andb_true_iff in H. destruct H as [Hd Hds].
  rewrite contains_cons, (IH Hds), orb_false_r. unfold char_eqb.
  destruct (N.eqb_spec c d); [subst; congruence | reflexivity].
Qed.

(** One entry of the numbered form, with a positive index and an idea
    the form can carry. *)
Lemma entry_facts k it :
  (0 < k)%Z ->
  plain_idea it = true ->
  let e := str_of_int k ++ py ". " ++ it in
  one_line e = true /\ truthy e = true /\ trimmed e = true
  /\ contains e LBRACKET = false /\ cleaned_line e = it.
Proof.
  intros Hk Hp. cbv zeta.
  destruct (str_of_int_positive k Hk) as [d [ds [Ek Hd]]].
  destruct it as [|c r]; [discriminate |].
  unfold plain_idea in Hp.
  apply andb_true_iff in Hp. destruct Hp as [Hp Hb].
  apply andb_true_iff in Hp. destruct Hp as [Hp Ho].
  apply andb_true_iff in Hp. destruct Hp as [Hn Ht].
  apply negb_true_iff in Hn. apply negb_true_iff in Hb.
  pose proof Hd as Hd'. cbn [forallb] in Hd'.
  apply andb_true_iff in Hd'. destruct Hd' as [Hd0 _].
  destruct (ascii_digit_facts d Hd0) as [Dn [Ds [Dl [Db Dk]]]].
  repeat split.
  - rewrite !one_line_app, one_line_int, Ho. reflexivity.
  - rewrite Ek. reflexivity.
  - assert (HL : last ((d :: ds) ++ py ". " ++ c :: r) d = last (c :: r) c).
    { rewrite app_assoc, last_app_cons. apply last_default. }
    rewrite Ek. unfold trimmed at 1. cbn [app] in *. rewrite Ds, HL.
    unfold trimmed in Ht. apply andb_true_iff in Ht. apply Ht.
  - rewrite !contains_app, Hb, Ek.
    rewrite (digits_absent (d :: ds) LBRACKET Hd) by reflexivity. reflexivity.
  - unfold cleaned_line, lstrip. rewrite Ek. cbn [app].
    rewrite lstrip_by_keeps by exact Dl.
    rewrite (isdigit_ascii d Hd0).
    change (d :: ds ++ py ". " ++ c :: r)
      with ((d :: ds) ++ py ". " ++ c :: r).
    rewrite lstrip_by_app_all.
    + change (py ". " ++ c :: r) with (46 :: 32 :: c :: r).
      cbn [lstrip_by].
      replace (numbering_char 46) with true
        by (unfold numbering_char; cbn; rewrite orb_true_r; reflexivity).
      replace (numbering_char 32) with true
        by (unfold numbering_char; cbn; rewrite !orb_true_r; reflexivity).
      rewrite Hn. apply strip_trimmed, Ht.
    + apply (forallb_impl is_ascii_digit); [| exact Hd].
      intros x Hx. apply (ascii_digit_facts x Hx).
Qed.

Lemma entries_facts ideas start :
  (0 <= start)%Z ->
  forallb plain_idea ideas = true ->
  let es := map (fun p => str_of_int (fst p + 1) ++ py ". " ++ snd p)
              (enumerate ideas start) in
  forallb one_line es = true /\ forallb truthy es = true
  /\ forallb trimmed es = true
  /\ forallb (fun e => negb (contains e LBRACKET)) es = true
  /\ map cleaned_line es = ideas.
Proof.
  cbv zeta. revert start. induction ideas as [|it r IH]; intros start Hs Hp.
  - repeat split.
  - cbn [forallb] in Hp. apply andb_true_iff in Hp. destruct Hp as [Hi Hr].
    destruct (IH (start + 1)%Z ltac:(lia) Hr) as [I1 [I2 [I3 [I4 I5]]]].
    destruct (entry_facts (start + 1) it ltac:(lia) Hi) as [E1 [E2 [E3 [E4 E5]]]].
    cbn [enumerate map forallb fst snd].
    rewrite I1, I2, I3, I4, I5, E1, E2, E3, E4, E5. repeat split.
Qed.

Lemma trimmed_join parts :
  forallb trimmed parts = true ->
  forallb truthy parts = true ->
  trimmed (join [LF] parts) = true.
Proof.
  induction parts as [|p r IH]; [reflexivity |].
  intros Ht Hn. cbn [forallb] in Ht, Hn.
  apply andb_true_iff in Ht. destruct Ht as [Tp Tr].
  apply andb_true_iff in Hn. destruct Hn as [Np Nr].
  destruct r as [|q r']; [exact Tp |].
  specialize (IH Tr Nr).
  change (join [LF] (p :: q :: r')) with (p ++ LF :: join [LF] (q :: r')).
  destruct (join [LF] (q :: r')) as [|x t] eqn:J.
  { destruct q; [discriminate |]. destruct r'; discriminate. }
  destruct p as [|c p']; [discriminate |].
  unfold trimmed in *. cbn [app].
  apply andb_true_iff in Tp. destruct Tp as [Tc _].
  apply andb_true_iff in IH. destruct IH as [_ Tl].
  rewrite Tc. cbn [andb].
  replace (c :: p' ++ LF :: x :: t) with ((c :: p' ++ [LF]) ++ x :: t)
    by (cbn [app]; rewrite <- app_assoc; reflexivity).
  rewrite last_app_cons, (last_default x t c x). exact Tl.
Qed.

Lemma contains_join parts c :
  char_eqb c LF = false ->
  forallb (fun e => negb (contains e c)) parts = true ->
  contains (join [LF] parts) c = false.
Proof.
  intros Hc. induction parts as [|p r IH]; [reflexivity |].
  intros H. cbn [forallb] in H. apply andb_true_iff in H. destruct H as [Hp Hr].
  apply negb_true_iff in Hp. destruct r as [|q r']; [exact Hp |].
  change (join [LF] (p :: q :: r')) with (p ++ LF :: join [LF] (q :: r')).
  rewrite contains_app, contains_cons, Hp, Hc, (IH Hr). reflexivity.
Qed.

Lemma map_id_on {A} (f : A -> A) (p : A -> bool) l :
  (forall x, p x = true -> f x = x) -> forallb p l = true -> map f l = l.
Proof.
  intros H. induction l as [|x l IH]; [reflexivity |].
  cbn [forallb map]. intros E. apply andb_true_iff in E. destruct E as [Ex El].
  rewrite (H x Ex), (IH El). reflexivity.
Qed.

Lemma filter_all {A} (p : A -> bool) l : forallb p l = true -> filter p l = l.
Proof.
  induction l as [|x l IH]; [reflexivity |].
  cbn [forallb filter]. intros E. apply andb_true_iff in E. destruct E as [Ex El].
  rewrite Ex, (IH El). reflexivity.
Qed.

(** X19: The text of the "Copy all ideas" box, read by the parser, gives
    back the ideas, provided each idea is one non-empty line without
    whitespace at its ends, holds no "[" and does not start with a
    digit, ".", ")" or a space. *)
Theorem joined_text_read_back (ideas : list str) :
  forallb plain_idea ideas = true ->
  extract_json_array (joined_text ideas) = Ok ideas.
Proof.
  intros Hp.
  destruct (entries_facts ideas 0 ltac:(lia) Hp) as [E1 [E2 [E3 [E4 E5]]]].
  fold (numbered_entries ideas) in *.
  assert (Ht : strip (joined_text ideas) = joined_text ideas)
    by (apply strip_trimmed, trimmed_join; assumption).
  rewrite extract_json_array_paths, Ht.
  assert (Hj : json_path (joined_text ideas) = None).
  { unfold json_path, try_json_array, json_candidate.
    rewrite index_absent; [reflexivity |].
    apply contains_join; [reflexivity | exact E4]. }
  rewrite Hj, fallback_lines_ok. unfold nonblank_lines.
  assert (Hl : splitlines (joined_text ideas) = numbered_entries ideas)
    by (apply splitlines_join; assumption).
  rewrite Hl.
  assert (Hs : forall e, trimmed e = true -> strip e = e)
    by exact strip_trimmed.
  rewrite (filter_all (fun ln => truthy (strip ln))).
  - rewrite (map_id_on strip trimmed _ Hs E3), E5.
    rewrite filter_all; [reflexivity |].
    apply (forallb_impl plain_idea); [| exact Hp].
    intros x Hx. destruct x; [discriminate | reflexivity].
  - clear -E2 E3. induction (numbered_entries ideas) as [|e r IH]; [reflexivity |].
    cbn [forallb] in *.
    apply andb_true_iff in E2. destruct E2 as [Ne Nr].
    apply andb_true_iff in E3. destruct E3 as [Te Tr].
    rewrite (strip_trimmed e Te), Ne, (IH Nr Tr). reflexivity.
Qed.

End ReadBack.

Section TrimmedIdeas.
Context {rt : Runtime}.

Lemma stripped_nonempty_trimmed strs :
  forallb trimmed (stripped_nonempty strs) = true.
Proof.
  unfold stripped_nonempty.
  induction (filter (fun i => truthy i && truthy (strip i)) strs) as [|s r IH];
    [reflexivity |].
  cbn [map forallb]. rewrite strip_is_trimmed, IH. reflexivity.
Qed.

(** X20: The ideas taken from a decoded array of strings carry no whitespace
    at either end. *)
Theorem extract_json_array_strings_trimmed (text : str) (strs : list str) :
  (c <- bracketed text ;; json_loads c) = Ok (JList (map JStr strs)) ->
  exists found,
    extract_json_array text = Ok found /\ forallb trimmed found = true.
Proof.
  intros H. exists (stripped_nonempty strs). split.
  - rewrite extract_json_array_paths, (json_path_strings _ _ H). reflexivity.
  - apply stripped_nonempty_trimmed.
Qed.

End TrimmedIdeas.

(** * Concrete runs with the reference interpreter *)

Import Reference.

(** ** The parser on concrete text *)

(** The two examples of the specification. *)
Example extract_spec_example_json :
  extract_json_array
    (py "Here you go: [" ++ quoted (py "Idea A") ++ py ", "
     ++ quoted (py " Idea B ") ++ py ", " ++ quoted [] ++ py "]")
  = Ok [py "Idea A"; py "Idea B"].
Proof. vm_compute. reflexivity. Qed.

Example extract_spec_example_lines :
  extract_json_array
    (py "1. Write a post" ++ [LF] ++ py "- Record a video" ++ [LF]
     ++ [BULLET] ++ py " Share a story")
  = Ok [py "Write a post"; py "Record a video"; py "Share a story"].
Proof. vm_compute. reflexivity. Qed.

Lemma extract_json_array_of_strings_witness :
  extract_json_array
    (py "Here you go: [" ++ quoted (py "Idea A") ++ py ", "
     ++ quoted (py " Idea B ") ++ py ", " ++ quoted [] ++ py "]")
  = Ok (filter truthy (map strip [py "Idea A"; py " Idea B "; []])).
Proof.
  apply (extract_json_array_of_strings _ [py "Idea A"; py " Idea B "; []]).
  vm_compute. reflexivity.
Defined.

Lemma fallback_strips_bullets_and_numbering_witness :
  extract_json_array
    (py "1. Write a post" ++ [LF] ++ py "- Record a video" ++ [LF]
     ++ [BULLET] ++ py " Share a story")
  = Ok (filter truthy
          (map cleaned_line
             (nonblank_lines
                (strip (py "1. Write a post" ++ [LF] ++ py "- Record a video"
                        ++ [LF] ++ [BULLET] ++ py " Share a story"))))).
Proof.
  apply fallback_strips_bullets_and_numbering. vm_compute. reflexivity.
Defined.

(** C6 as stated fails: after the numbering the code also trims the
    line, and digits and marks may alternate in the run it removes. *)
Lemma fallback_not_as_specified :
  extract_json_array (py "1." ++ [TAB] ++ py "x") = Ok [py "x"]
  /\ spec_fallback (strip (py "1." ++ [TAB] ++ py "x")) = [TAB :: py "x"]
  /\ extract_json_array (py "1.5 tips") = Ok [py "tips"]
  /\ spec_fallback (strip (py "1.5 tips")) = [py "5 tips"].
Proof. vm_compute. repeat split; reflexivity. Qed.

(** ** The generator and the script on concrete answers *)

Lemma generate_ideas_repeats_last_witness :
  generate_ideas cats 3 general practical 0.5%float
    (fresh_world sample_key [py "a"; py "b"])
  = (Ok ([py "a"] ++ repeat (py "a") 2),
     log_call (chat_request (fallback_prompt cats 3 general practical) 0.5%float)
       (log_call (chat_request (primary_prompt cats 3 general practical) 0.5%float)
          (fresh_world sample_key [py "a"; py "b"]))).
Proof.
  apply (generate_ideas_repeats_last cats 3 general practical 0.5%float
           (fresh_world sample_key [py "a"; py "b"]) (py "a") (py "b")
           [py "a"] [py "b"]);
    solve [reflexivity | vm_compute; discriminate].
Defined.

Lemma generate_ideas_padded_witness :
  exists result,
    generate_ideas cats 2 general practical 0.5%float
      (fresh_world sample_key [[]; py "b"])
    = (Ok result,
       log_call (chat_request (fallback_prompt cats 2 general practical) 0.5%float)
         (log_call (chat_request (primary_prompt cats 2 general practical) 0.5%float)
            (fresh_world sample_key [[]; py "b"])))
    /\ len result = 2%Z
    /\ firstn 0 result = []
    /\ (1 <= 0 -> skipn 0 result = repeat [] (Z.to_nat (2 - 0)))%Z
    /\ (0%Z = 0%Z -> nth_error result 0 = Some (py "cats - idea 1")).
Proof.
  apply (generate_ideas_padded cats 2 general practical 0.5%float
           (fresh_world sample_key [[]; py "b"]) [] (py "b") [] [py "b"]);
    solve [reflexivity | vm_compute; discriminate].
Defined.

(** C1 as stated fails: with one idea from the first answer and another
    from the second, the three results are the first idea three times;
    the second answer's idea and the placeholder "cats - idea 3" do not
    appear. *)
Lemma generate_ideas_pads_with_copies :
  extract_json_array (py "a") = Ok [py "a"]
  /\ extract_json_array (py "b") = Ok [py "b"]
  /\ fst (generate_ideas cats 3 general practical 0.5%float
            (fresh_world sample_key [py "a"; py "b"]))
     = Ok [py "a"; py "a"; py "a"].
Proof. vm_compute. repeat split; reflexivity. Qed.

Lemma generate_ideas_exact_answer_witness :
  exists w',
    generate_ideas cats 2 general practical 0.5%float
      (fresh_world sample_key [a_and_b])
    = (Ok (map strip [py "a"; py "b"]), w')
    /\ calls w'
       = calls (fresh_world sample_key [a_and_b])
         ++ [chat_request (primary_prompt cats 2 general practical) 0.5%float].
Proof.
  apply (generate_ideas_exact_answer cats 2 general practical 0.5%float
           (fresh_world sample_key [a_and_b]) a_and_b [py "a"; py "b"]);
    vm_compute; reflexivity.
Defined.

(** C5 as stated fails: an answer that is a valid array of two distinct
    strings, one of them empty, makes a request for two ideas send a
    second request, and the result is not the two strings of the
    array. *)
Lemma generate_ideas_exact_answer_with_empty_string :
  (c <- bracketed empty_and_a ;; json_loads c)
  = Ok (JList [JStr []; JStr (py "a")])
  /\ fst (generate_ideas cats 2 general practical 0.5%float
            (fresh_world sample_key [empty_and_a; empty_and_a]))
     = Ok [py "a"; py "a"]
  /\ length (calls (snd (generate_ideas cats 2 general practical 0.5%float
                           (fresh_world sample_key [empty_and_a; empty_and_a]))))
     = 2%nat.
Proof. vm_compute. repeat split; reflexivity. Qed.

Lemma generate_ideas_without_key_witness :
  generate_ideas cats 2 general practical 0.5%float
    (snd (set_api_key_from_env_or_input None [] (fresh_world None [a_and_b])))
  = (Raise (RuntimeError (py "OpenAI API key is not set.")),
     snd (set_api_key_from_env_or_input None [] (fresh_world None [a_and_b])))
  /\ calls (snd (set_api_key_from_env_or_input None []
                   (fresh_world None [a_and_b])))
     = calls (fresh_world None [a_and_b]).
Proof.
  apply (generate_ideas_without_key None [] cats 2 general practical
           0.5%float (fresh_world None [a_and_b])); reflexivity.
Defined.

(** C8: a missing credential does not stop the call once a key has been
    typed before. After a run with a key in the sidebar field, a run
    with the field empty and no key in the environment reports that no
    key was found, yet [openai.api_key] still holds the earlier key:
    the generation call does not fail, and a request is sent. *)
Lemma generate_ideas_with_stale_key :
  let w1 := snd (main None keyed_run (fresh_world None [py "a"])) in
  let w2 := snd (set_api_key_from_env_or_input None [] w1) in
  api_key w1 = Some (py "sk-typed")
  /\ fst (set_api_key_from_env_or_input None [] w1) = Ok SidebarNoKey
  /\ fst (generate_ideas cats 1 general practical 0.5%float w2) = Ok [py "a"]
  /\ calls (snd (generate_ideas cats 1 general practical 0.5%float w2))
     = [chat_request (primary_prompt cats 1 general practical) 0.5%float]
  /\ calls (snd (main None first_run w1))
     = [chat_request (primary_prompt cats 1 general practical) 0.5%float]
  /\ session_state (snd (main None first_run w1))
     = {| ideas := Some [py "a"]; topic := Some cats |}.
Proof. vm_compute. repeat split; reflexivity. Qed.

Lemma generate_more_appends_witness :
  snd (main None second_run stored_world)
  = set_session {| ideas := Some ([py "a"] ++ [py "b"]); topic := Some cats |}
      (log_call
         (chat_request (primary_prompt cats 1 (py "Listicle") (py "Funny"))
            1%float)
         stored_world).
Proof.
  exact (generate_more_appends None second_run stored_world [py "a"] cats
           eq_refl eq_refl eq_refl eq_refl eq_refl).
Defined.

(** C7 as stated fails: after "Generate Ideas" with style General, tone
    Practical and temperature 0.5, a "Generate More" pressed with other
    values in the sidebar sends a request made from those other values;
    only the topic is the one used before. *)
Lemma generate_more_uses_current_widgets :
  let w1 := snd (main None first_run (fresh_world sample_key [py "a"; py "b"])) in
  let w2 := snd (main None second_run w1) in
  user_prompts w1 = [[primary_prompt cats 1 general practical]]
  /\ temperatures w1 = [0.5%float]
  /\ session_state w1 = {| ideas := Some [py "a"]; topic := Some cats |}
  /\ user_prompts w2
     = [[primary_prompt cats 1 general practical];
        [primary_prompt cats 1 (py "Listicle") (py "Funny")]]
  /\ temperatures w2 = [0.5%float; 1%float]
  /\ session_state w2 = {| ideas := Some [py "a"; py "b"]; topic := Some cats |}
  /\ str_eqb (primary_prompt cats 1 (py "Listicle") (py "Funny"))
       (primary_prompt cats 1 general practical) = false.
Proof. vm_compute. repeat split; reflexivity. Qed.

(** The export of a list with a quoted word, and its first data row read
    back. *)
Example csv_export_example :
  csv_export [py "Say " ++ quoted (py "hi"); py "b"]
  = py "index,idea" ++ [LF]
    ++ py "1," ++ quoted (py "Say " ++ quoted (quoted (py "hi"))) ++ [LF]
    ++ py "2," ++ quoted (py "b") ++ [LF]
  /\ csv_decode_row (csv_row 1 (py "Say " ++ quoted (py "hi")))
     = Some ([py "1"; py "Say " ++ quoted (py "hi")], []).
Proof. vm_compute. split; reflexivity. Qed.

(** ** Further concrete runs *)

Example extract_number_array :
  extract_json_array (py "[1, 2]") = Ok [py "[1, 2]"].
Proof. vm_compute. reflexivity. Qed.

Lemma extract_json_array_falls_back_witness :
  extract_json_array (py "[1, 2]")
  = Ok (filter truthy
          (map cleaned_line (nonblank_lines (strip (py "[1, 2]"))))).
Proof.
  apply extract_json_array_falls_back. vm_compute. reflexivity.
Defined.

Lemma extract_json_array_strings_trimmed_witness :
  exists found,
    extract_json_array
      (py "Here you go: [" ++ quoted (py "Idea A") ++ py ", "
       ++ quoted (py " Idea B ") ++ py ", " ++ quoted [] ++ py "]")
    = Ok found
    /\ forallb trimmed found = true.
Proof.
  apply (extract_json_array_strings_trimmed _ [py "Idea A"; py " Idea B "; []]).
  vm_compute. reflexivity.
Defined.

Lemma generate_ideas_length_witness :
  fst (generate_ideas cats 3 general practical 0.5%float
         (fresh_world sample_key [py "a"; py "b"]))
  = Ok [py "a"; py "a"; py "a"]
  /\ len [py "a"; py "a"; py "a"] = 3%Z.
Proof.
  split; [vm_compute; reflexivity |].
  apply (generate_ideas_length cats 3 general practical 0.5%float
           (fresh_world sample_key [py "a"; py "b"]));
    [lia | vm_compute; reflexivity].
Defined.

Lemma generate_ideas_nonempty_witness :
  fst (generate_ideas cats 2 general practical 0.5%float
         (fresh_world sample_key [three_lines]))
  = Ok [py "x"; py "y"]
  /\ forallb truthy [py "x"; py "y"] = true.
Proof.
  split; [vm_compute; reflexivity |].
  apply (generate_ideas_nonempty cats 2 general practical 0.5%float
           (fresh_world sample_key [three_lines])).
  vm_compute. reflexivity.
Defined.

Lemma generate_ideas_first_answer_enough_witness :
  generate_ideas cats 2 general practical 0.5%float
    (fresh_world sample_key [three_lines])
  = (Ok (slice_to [py "x"; py "y"; py "z"] 2),
     log_call (chat_request (primary_prompt cats 2 general practical) 0.5%float)
       (fresh_world sample_key [three_lines])).
Proof.
  apply (generate_ideas_first_answer_enough cats 2 general practical 0.5%float
           (fresh_world sample_key [three_lines]) three_lines);
    solve [reflexivity | vm_compute; reflexivity | vm_compute; discriminate].
Defined.

Lemma generate_ideas_second_answer_enough_witness :
  generate_ideas cats 2 general practical 0.5%float
    (fresh_world sample_key [py "a"; three_lines])
  = (Ok (firstn (Z.to_nat 2) [py "x"; py "y"; py "z"]),
     log_call (chat_request (fallback_prompt cats 2 general practical) 0.5%float)
       (log_call (chat_request (primary_prompt cats 2 general practical) 0.5%float)
          (fresh_world sample_key [py "a"; three_lines]))).
Proof.
  apply (generate_ideas_second_answer_enough cats 2 general practical 0.5%float
           (fresh_world sample_key [py "a"; three_lines])
           (py "a") three_lines [py "a"]);
    solve [reflexivity | vm_compute; reflexivity | vm_compute; discriminate].
Defined.

Lemma generate_ideas_first_call_fails_witness :
  generate_ideas cats 2 general practical 0.5%float (fresh_world sample_key [])
  = (Raise (APIError 503),
     log_call (chat_request (primary_prompt cats 2 general practical) 0.5%float)
       (fresh_world sample_key [])).
Proof.
  apply (generate_ideas_first_call_fails cats 2 general practical 0.5%float
           (fresh_world sample_key [])); reflexivity.
Defined.

Lemma generate_ideas_second_call_fails_witness :
  generate_ideas cats 2 general practical 0.5%float
    (fresh_world sample_key [py "a"])
  = (Raise (APIError 503),
     log_call (chat_request (fallback_prompt cats 2 general practical) 0.5%float)
       (log_call (chat_request (primary_prompt cats 2 general practical) 0.5%float)
          (fresh_world sample_key [py "a"]))).
Proof.
  apply (generate_ideas_second_call_fails cats 2 general practical 0.5%float
           (fresh_world sample_key [py "a"]) (py "a") [py "a"]);
    solve [reflexivity | vm_compute; reflexivity].
Defined.

Lemma generate_ideas_returns_witness :
  exists result,
    fst (generate_ideas cats 4 general practical 0.5%float
           (answering_world (py "a")))
    = Ok result.
Proof.
  apply (generate_ideas_returns cats 4 general practical 0.5%float
           (answering_world (py "a"))).
  - reflexivity.
  - intros seen req. exists (py "a"). reflexivity.
Defined.

Lemma main_sends_nothing_witness :
  calls (snd (main None second_run (fresh_world sample_key [py "a"])))
  = calls (fresh_world sample_key [py "a"])
  /\ (clear_btn second_run = false ->
      session_state (snd (main None second_run (fresh_world sample_key [py "a"])))
      = initialised (session_state (fresh_world sample_key [py "a"]))).
Proof.
  apply (main_sends_nothing None second_run (fresh_world sample_key [py "a"]));
    reflexivity.
Defined.

Lemma generate_replaces_witness :
  snd (main None first_run stored_world)
  = set_session {| ideas := Some [py "b"]; topic := Some cats |}
      (log_call (chat_request (primary_prompt cats 1 general practical) 0.5%float)
         stored_world).
Proof.
  exact (generate_replaces None first_run stored_world
           eq_refl eq_refl eq_refl eq_refl).
Defined.

Lemma generate_failure_is_shown_witness :
  exists k,
    fst (main None first_run (fresh_world sample_key []))
    = Ok {| notices := [k; ShownException (APIError 503)];
            display := None; rerun := false |}.
Proof.
  apply (generate_failure_is_shown None first_run (fresh_world sample_key []));
    reflexivity.
Defined.

Lemma main_at_most_two_calls_witness :
  (length (calls (snd (main None first_run
                         (fresh_world sample_key [py "a"; py "b"]))))
   <= length (calls (fresh_world sample_key [py "a"; py "b"])) + 2)%nat.
Proof.
  apply (main_at_most_two_calls None first_run
           (fresh_world sample_key [py "a"; py "b"])).
  reflexivity.
Defined.

Lemma sidebar_key_stays_witness :
  api_key (snd (main None second_run
                  (snd (main None keyed_run (fresh_world None [])))))
  = Some (py "sk-typed").
Proof.
  apply (sidebar_key_stays None None keyed_run second_run (fresh_world None []));
    reflexivity.
Defined.

Lemma clear_resets_session_witness :
  session_state (snd (main None clear_run stored_world))
  = {| ideas := Some []; topic := Some [] |}
  /\ exists page,
       fst (main None clear_run stored_world) = Ok page /\ rerun page = true.
Proof.
  destruct (clear_resets_session None clear_run stored_world [py "a"]
              (match encode_utf8 (csv_export [py "a"]) with
               | Ok b => b
               | Raise _ => []
               end)
              eq_refl eq_refl eq_refl eq_refl eq_refl eq_refl) as [k H].
  rewrite H. split; [reflexivity |]. eexists. split; reflexivity.
Defined.

Lemma joined_text_lines_witness :
  splitlines (joined_text [py "x"; py "y"]) = [py "1. x"; py "2. y"].
Proof.
  apply (joined_text_lines [py "x"; py "y"]). reflexivity.
Defined.

(** The digit table of the reference interpreter holds the ASCII
    digits. *)
Lemma unicode_isdigit_ascii c : is_ascii_digit c = true -> isdigit c = true.
Proof.
  intros H. unfold isdigit, cpython, unicode_isdigit, digit_ranges.
  cbn [existsb fst snd]. unfold is_ascii_digit in H. rewrite H. reflexivity.
Qed.

Lemma joined_text_read_back_witness :
  extract_json_array (joined_text [py "Write a post"; py "Share a story"])
  = Ok [py "Write a post"; py "Share a story"].
Proof.
  apply (joined_text_read_back unicode_isdigit_ascii).
  vm_compute. reflexivity.
Defined.
